(** * The reconnaissance API server (server/server.js)

    A shallow embedding of the Express job layer: request validation, the
    subprocess launcher with its python3/python fallback, the result readers
    and the three route handlers, followed by the properties proved of them.

    Conventions of the model.
    - Request fields are JavaScript scalars or arrays of scalars ([jsval]);
      object-valued fields, nested arrays and non-integer numbers are
      outside the model.
    - Strings are the UTF-8 bytes of the JavaScript string.  Every character
      class of the source is a subset of ASCII, so a character outside ASCII
      is outside every class in the model as in the source.
    - Paths are absolute POSIX paths held as lists of segments; [path_join]
      is [path.join] with an absolute first argument.
    - The file system, the clock, the environment and the behaviour of the
      spawned processes are inputs ([world]); [JSON.parse] is a parameter of
      the development.
    - A response holds the status, the body and, of its headers, those set
      by the handler's own code; GET requests carry no conditional or range
      header. *)

From Stdlib Require Import ZArith List String Ascii Bool Lia DecimalString DecimalZ.
Import ListNotations.

#[local] Open Scope string_scope.
#[local] Open Scope Z_scope.

(* ------------------------------------------------------------------ *)
(** ** JavaScript values *)

(** An element of a JSON array. *)
Inductive atom :=
| ANull
| ABool (b : bool)
| ANum (n : Z)
| AStr (s : string).

Inductive jsval :=
| VUndefined
| VNull
| VBool (b : bool)
| VNum (n : Z)
| VStr (s : string)
| VArr (items : list atom).

Definition of_atom (a : atom) : jsval :=
  match a with
  | ANull => VNull
  | ABool b => VBool b
  | ANum n => VNum n
  | AStr s => VStr s
  end.

(** [String(n)] for an integer-valued number. *)
Definition numeral (n : Z) : string := NilZero.string_of_int (Z.to_int n).

(** Truthiness, as [||] and [?:] see it. *)
Definition truthy (v : jsval) : bool :=
  match v with
  | VUndefined | VNull => false
  | VBool b => b
  | VNum n => negb (n =? 0)
  | VStr s => negb (s =? "")%string
  | VArr _ => true
  end.

(** [a || b] *)
Definition js_or (a b : jsval) : jsval := if truthy a then a else b.

(** [arg !== ""] *)
Definition not_empty_string (v : jsval) : bool :=
  match v with
  | VStr s => negb (s =? "")%string
  | _ => true
  end.

Definition atom_string (a : atom) : string :=
  match a with
  | ANull => ""
  | ABool true => "true"
  | ABool false => "false"
  | ANum n => numeral n
  | AStr s => s
  end.

(** express-validator's [toString], applied to a value before each validator
    runs: [undefined] and [null] become the empty string.  On an array it is
    [String(v)], the elements joined with commas, which is also what a child
    process receives for an array argument. *)
Definition toString (v : jsval) : string :=
  match v with
  | VUndefined | VNull => ""
  | VBool true => "true"
  | VBool false => "false"
  | VNum n => numeral n
  | VStr s => s
  | VArr items => String.concat "," (map atom_string items)
  end.

(** What a standard validator of express-validator is run on: the items of
    an array one by one, any other value itself. *)
Definition elements (v : jsval) : list jsval :=
  match v with
  | VArr items => map of_atom items
  | _ => [v]
  end.

(* ------------------------------------------------------------------ *)
(** ** Strings *)

Definition chars (s : string) : list ascii := list_ascii_of_string s.

(** [s.includes(t)] *)
Fixpoint includes (t s : string) : bool :=
  String.prefix t s ||
  match s with
  | EmptyString => false
  | String _ s' => includes t s'
  end.

(** [s.split(c)] on a single separator character. *)
Fixpoint split (c : ascii) (s : string) : list string :=
  match s with
  | EmptyString => [""%string]
  | String a s' =>
      if Ascii.eqb a c then ""%string :: split c s'
      else match split c s' with
           | [] => [String a ""]
           | w :: ws => String a w :: ws
           end
  end.

(* ------------------------------------------------------------------ *)
(** ** Regular expressions, as far as the source uses them *)

Definition between (lo hi c : ascii) : bool :=
  (nat_of_ascii lo <=? nat_of_ascii c)%nat && (nat_of_ascii c <=? nat_of_ascii hi)%nat.

(** [[a-zA-Z]] *)
Definition alpha (c : ascii) : bool := between "a" "z" c || between "A" "Z" c.
(** [[a-zA-Z0-9]] *)
Definition alnum (c : ascii) : bool := alpha c || between "0" "9" c.
(** [[a-zA-Z0-9\-]] *)
Definition alnum_dash (c : ascii) : bool := alnum c || Ascii.eqb c "-".
(** [\.] *)
Definition dot (c : ascii) : bool := Ascii.eqb c ".".

Inductive regex :=
| Cls (p : ascii -> bool)                          (* one character of a class *)
| Rep (p : ascii -> bool) (lo : nat) (hi : option nat) (* class{lo,hi}; [None] is {lo,} *)
| Cat (r1 r2 : regex).

Definition may_take (hi : option nat) : bool :=
  match hi with Some O => false | _ => true end.

Definition took (hi : option nat) : option nat :=
  match hi with Some h => Some (Nat.pred h) | None => None end.

(** [rep p lo hi s k]: some prefix of [s] of [lo] to [hi] characters of the
    class [p] is followed by a rest that the continuation [k] accepts. *)
Fixpoint rep (p : ascii -> bool) (lo : nat) (hi : option nat)
             (s : list ascii) (k : list ascii -> bool) {struct s} : bool :=
  (match lo with O => k s | S _ => false end) ||
  match s with
  | [] => false
  | c :: s' => may_take hi && p c && rep p (Nat.pred lo) (took hi) s' k
  end.

Fixpoint matchk (r : regex) (s : list ascii) (k : list ascii -> bool) : bool :=
  match r with
  | Cls p => match s with c :: s' => p c && k s' | [] => false end
  | Rep p lo hi => rep p lo hi s k
  | Cat r1 r2 => matchk r1 s (fun s' => matchk r2 s' k)
  end.

Definition at_end (s : list ascii) : bool :=
  match s with [] => true | _ => false end.

(** [/^r$/.test(s)] *)
Definition regex_test (r : regex) (s : string) : bool :=
  matchk r (chars s) at_end.

(** [/^[a-zA-Z0-9][a-zA-Z0-9\-]{0,61}[a-zA-Z0-9]?\.[a-zA-Z]{2,}$/], the one
    pattern of the POST validator and of both GET handlers. *)
Definition domain_regex : regex :=
  Cat (Cls alnum)
 (Cat (Rep alnum_dash 0 (Some 61%nat))
 (Cat (Rep alnum 0 (Some 1%nat))
 (Cat (Cls dot)
      (Rep alpha 2 None)))).

Definition valid_domain (s : string) : bool := regex_test domain_regex s.


(* ------------------------------------------------------------------ *)
(** ** Request validation (express-validator chains of [validateDomain]) *)

(** The JSON body of a POST request, after destructuring: a field that is
    absent reads as [VUndefined]. *)
Record body := {
  domain : jsval;
  timeout : jsval;
  workers : jsval;
  verbose : jsval;
  jsonOnly : jsval;
  csvOnly : jsval
}.

Record verror := { field : string; msg : string }.

(** A byte that continues a UTF-8 sequence. *)
Definition continuation (a : ascii) : bool :=
  (128 <=? nat_of_ascii a)%nat && (nat_of_ascii a <? 192)%nat.

(** U+FE0E or U+FE0F at the head of the string. *)
Definition selector_at (s : string) : bool :=
  match s with
  | String a (String b (String c _)) =>
      (nat_of_ascii a =? 239)%nat && (nat_of_ascii b =? 184)%nat &&
      ((nat_of_ascii c =? 142)%nat || (nat_of_ascii c =? 143)%nat)
  | _ => false
  end.

(** The length validator.js measures: the UTF-16 length less the surrogate
    pairs and the variation selectors U+FE0E and U+FE0F, that is the number
    of characters other than those selectors. *)
Fixpoint counted_length (s : string) : nat :=
  match s with
  | EmptyString => O
  | String a r =>
      ((if continuation a || selector_at (String a r) then 0 else 1)
       + counted_length r)%nat
  end.

(** validator.js [isLength({ min })] *)
Definition isLength (min : nat) (s : string) : bool := (min <=? counted_length s)%nat.

(** The number a string denotes when it matches [/^[-+]?[0-9]+$/], the
    pattern [isInt] tests first (leading zeroes allowed by default). *)
Definition parse_int (s : string) : option Z :=
  match s with
  | EmptyString => None
  | String a r =>
      if Ascii.eqb a "+" then option_map Z.of_uint (NilZero.uint_of_string r)
      else if Ascii.eqb a "-" then option_map (fun d => - Z.of_uint d) (NilZero.uint_of_string r)
      else option_map Z.of_uint (NilZero.uint_of_string s)
  end.

(** validator.js [isInt({ min, max })] *)
Definition isInt (min max : Z) (s : string) : bool :=
  match parse_int s with
  | Some n => (min <=? n) && (n <=? max)
  | None => false
  end.

(** One validator of a chain with its [withMessage]. *)
Definition check (name : string) (ok : bool) (message : string) : list verror :=
  if ok then [] else [{| field := name; msg := message |}].

(** [.optional()]: the rest of the chain is skipped for [undefined] only. *)
Definition optional (v : jsval) (rest : list verror) : list verror :=
  match v with VUndefined => [] | _ => rest end.

(** A standard validator on a field: one error for every element that
    fails the test. *)
Definition validator (name : string) (test : string -> bool) (message : string)
    (v : jsval) : list verror :=
  flat_map (fun x => check name (test (toString x)) message) (elements v).

Definition validate_domain_field (b : body) : list verror :=
  validator "domain" (isLength 1) "Domain is required" (domain b) ++
  validator "domain" (regex_test domain_regex) "Invalid domain format" (domain b).

Definition validate_timeout_field (b : body) : list verror :=
  optional (timeout b)
    (validator "timeout" (isInt 30 300)
       "Timeout must be between 30 and 300 seconds" (timeout b)).

Definition validate_workers_field (b : body) : list verror :=
  optional (workers b)
    (validator "workers" (isInt 1 30)
       "Workers must be between 1 and 30" (workers b)).

(** [validationResult(req)] after the middleware [validateDomain] has run. *)
Definition validateDomain (b : body) : list verror :=
  validate_domain_field b ++ validate_timeout_field b ++ validate_workers_field b.

(* ------------------------------------------------------------------ *)
(** ** Paths *)

Definition path := list string.

(** One step of [path.normalize] below an absolute root: empty and [.]
    segments vanish, [..] removes the segment before it (nothing at the
    root), any other segment is kept. *)
Definition push_segment (stack : path) (seg : string) : path :=
  if (seg =? "")%string then stack
  else if (seg =? ".")%string then stack
  else if (seg =? "..")%string then removelast stack
  else (stack ++ [seg])%list.

Definition normalize (segs : list string) : path := fold_left push_segment segs [].

(** [path.join(base, ...parts)] *)
Definition path_join (base : path) (parts : list string) : path :=
  normalize (base ++ flat_map (split "/") parts)%list.

(** The path as the string handed to a child process. *)
Definition render (p : path) : string :=
  match p with
  | [] => "/"
  | _ => String.concat "" (map (fun seg => "/" ++ seg) p)
  end.

(* ------------------------------------------------------------------ *)
(** ** JSON documents and HTTP responses *)

#[warnings="-register-all"]
Inductive json :=
| JNull
| JBool (b : bool)
| JNum (n : Z)
| JFrac (num : Z) (den : positive)   (* the number num/den *)
| JStr (s : string)
| JArr (items : list json)
| JObj (members : list (string * json)).

Fixpoint member (key : string) (members : list (string * json)) : option json :=
  match members with
  | [] => None
  | (k, v) :: rest => if (k =? key)%string then Some v else member key rest
  end.

(** [o[key]] for a document [o] *)
Definition get (key : string) (o : json) : option json :=
  match o with JObj ms => member key ms | _ => None end.

Inductive result (A : Type) :=
| Ok (a : A)
| Throw (message : string).
Arguments Ok {A} a.
Arguments Throw {A} message.

Inductive payload :=
| Json (j : json)                           (* res.json(j) *)
| Text (data : string)                      (* res.send(data) *)
| File (p : path) (filename : string)       (* res.download(p, filename) *)
| ErrorPage.                                (* the page of Express's final handler *)

Record response := {
  status : nat;
  headers : list (string * string);
  sent : payload
}.

Definition quote : string := String (ascii_of_nat 34) "".
Definition newline : string := String (ascii_of_nat 10) "".

(* ------------------------------------------------------------------ *)
(** ** The world a request runs in *)

Inductive proc := Primary | Fallback.   (* the python3 child, the python child *)

(** What a child process emits: chunks on its two pipes, ['error'] with the
    error's [code] and [message], ['close'] with the exit code ([None] when a
    signal ended it). *)
Inductive event :=
| Data (chunk : string)
| ErrData (chunk : string)
| Error (code message : string)
| Close (code : option Z).

(** How [res.download] can fail once it has been called: the file is gone
    (ENOENT, ENOTDIR, ENAMETOOLONG), it is a directory, or another
    file-system error occurs. *)
Inductive send_failure :=
| Gone
| IsDirectory
| Unreadable.

Inductive effect :=
| FsExists (p : path)
| FsMkdir (p : path)
| FsAccess (p : path)
| FsRead (p : path)
| FsSend (p : path)
| Spawn (command : string) (args : list jsval).

Record world := {
  PYTHON_PATH : jsval;                     (* process.env.PYTHON_PATH *)
  exists_sync : path -> bool;              (* fs.existsSync *)
  mkdir_sync : path -> option string;      (* fs.mkdirSync: the error thrown, if any *)
  access : path -> option string;          (* fs.promises.access: the rejection, if any *)
  read_file_sync : path -> result string;  (* fs.readFileSync(p, 'utf-8') *)
  send_file : path -> option send_failure; (* res.download: its failure, if any *)
  start_ms : Z;                            (* Date.now() before the script runs *)
  end_ms : Z;                              (* Date.now() after it *)
  now_iso : string;                        (* new Date().toISOString() *)
  events : list (proc * event)             (* what the children emit, in order *)
}.

(* ------------------------------------------------------------------ *)
(** ** Running the script: [handlePythonProcess] and [executeScript] *)

(** The value the promise of [executeScript] resolves with. *)
Record script_result := {
  success : bool;
  message : string;
  output : string
}.

Inductive settled :=
| Resolved (r : script_result)
| Rejected (error_message : string).

(** A promise settles once: [resolve] and [reject] on a settled promise do
    nothing. *)
Definition settle (promise : option settled) (s : settled) : option settled :=
  match promise with
  | None => Some s
  | Some _ => promise
  end.

(** The [stdout] and [stderr] accumulators of one call of
    [handlePythonProcess]. *)
Record capture := { stdout : string; stderr : string }.

Definition no_output : capture := {| stdout := ""; stderr := "" |}.

Definition exit_code (code : option Z) : string :=
  match code with Some c => numeral c | None => "null" end.

Definition exit_message (code : option Z) (c : capture) : string :=
  "Script exited with code " ++ exit_code code ++ newline ++
  "STDOUT: " ++ stdout c ++ newline ++
  "STDERR: " ++ stderr c.

Definition spawn_message (message : string) : string :=
  "Error executing script: " ++ message.

(** The four listeners [handlePythonProcess] registers on a child, as the
    reaction to one event of that child. *)
Definition handlePythonProcess (c : capture) (promise : option settled) (e : event)
  : capture * option settled :=
  match e with
  | Data d => ({| stdout := stdout c ++ d; stderr := stderr c |}, promise)
  | ErrData d => ({| stdout := stdout c; stderr := stderr c ++ d |}, promise)
  | Close code =>
      match code with
      | Some 0 =>
          (c, settle promise (Resolved {| success := true;
                                          message := "Reconnaissance completed successfully";
                                          output := stdout c |}))
      | _ => (c, settle promise (Rejected (exit_message code c)))
      end
  | Error _ m => (c, settle promise (Rejected (spawn_message m)))
  end.

(** The state of one call of [executeScript]: its promise, the listeners'
    accumulators for the python3 child, those for the python child once it
    has been spawned, and the commands spawned so far. *)
Record launch := {
  promise : option settled;
  primary : capture;
  fallback : option capture;
  spawned : list string
}.

(** The listener of line 94, registered on the python3 child before
    [handlePythonProcess] registers its own. *)
Definition on_primary_error (st : launch) (e : event) : launch :=
  match e with
  | Error code m =>
      if (code =? "ENOENT")%string then
        {| promise := promise st; primary := primary st;
           fallback := Some no_output;
           spawned := (spawned st ++ ["python"])%list |}
      else
        {| promise := settle (promise st) (Rejected (spawn_message m));
           primary := primary st; fallback := fallback st; spawned := spawned st |}
  | _ => st
  end.

(** One event reaches the listeners of the child that emitted it, in the
    order they were registered. *)
Definition step (st : launch) (pe : proc * event) : launch :=
  match pe with
  | (Primary, e) =>
      let st1 := on_primary_error st e in
      let (c, p) := handlePythonProcess (primary st1) (promise st1) e in
      {| promise := p; primary := c; fallback := fallback st1; spawned := spawned st1 |}
  | (Fallback, e) =>
      match fallback st with
      | None => st                        (* no such child yet *)
      | Some c0 =>
          let (c, p) := handlePythonProcess c0 (promise st) e in
          {| promise := p; primary := primary st; fallback := Some c; spawned := spawned st |}
      end
  end.

Definition started : launch :=
  {| promise := None; primary := no_output; fallback := None; spawned := ["python3"] |}.

Definition run (evs : list (proc * event)) : launch := fold_left step evs started.

(** Only chunks of output. *)
Definition is_output (e : event) : bool :=
  match e with Data _ | ErrData _ => true | _ => false end.

(** What the listeners have accumulated after the events [es] of one child. *)
Definition captured (es : list event) : capture :=
  fold_left (fun c e => fst (handlePythonProcess c None e)) es no_output.

(* ------------------------------------------------------------------ *)
(** ** Files of a run *)

Definition ensureDirectoryExists (w : world) (dirPath : path) : result path * list effect :=
  if exists_sync w dirPath then (Ok dirPath, [FsExists dirPath])
  else match mkdir_sync w dirPath with
       | Some m => (Throw m, [FsExists dirPath; FsMkdir dirPath])
       | None => (Ok dirPath, [FsExists dirPath; FsMkdir dirPath])
       end.

Definition report_name (d : string) : string := d ++ "_reconnaissance_report.json".
Definition csv_name (d : string) : string := d ++ "_subdomains.csv".

(** [format === 'json'] *)
Definition is_json (format : jsval) : bool :=
  match format with VStr s => (s =? "json")%string | _ => false end.

Definition results_filename (d : string) (format : jsval) : string :=
  if is_json format then report_name d else csv_name d.

(** [const { format = 'json' } = req.query] *)
Definition default_format (format : jsval) : jsval :=
  match format with VUndefined => VStr "json" | f => f end.

(** What [readResults] returns: a parsed document or the file's text. *)
Inductive results_data :=
| Parsed (j : json)
| Raw (data : string).

Definition as_json (r : results_data) : json :=
  match r with Parsed j => j | Raw s => JStr s end.

Definition as_payload (r : results_data) : payload :=
  match r with Parsed j => Json j | Raw s => Text s end.

(** The message of the [TypeError] that [path.join] throws for an argument
    that is not a string. *)
Definition path_type_error (v : jsval) : string :=
  "The " ++ quote ++ "path" ++ quote ++ " argument must be of type string. Received " ++
  match v with
  | VUndefined => "undefined"
  | VNull => "null"
  | VBool b => "type boolean (" ++ toString v ++ ")"
  | VNum n => "type number (" ++ numeral n ++ ")"
  | VStr s => "type string ('" ++ s ++ "')"
  | VArr _ => "an instance of Array"
  end.

(** An entry of [errors.array()].  Of the members of a validation error the
    model keeps [msg] and [path]. *)
Definition json_of_verror (e : verror) : json :=
  JObj [("msg", JStr (msg e)); ("path", JStr (field e))].

(** The list holds an error for the field [path] with the message
    [message]. *)
Definition lists_error (errs : list json) (path message : string) : Prop :=
  exists e, In e errs /\
    get "path" e = Some (JStr path) /\ get "msg" e = Some (JStr message).

Definition validation_failed (errors : list verror) : response :=
  {| status := 400; headers := [];
     sent := Json (JObj [("success", JBool false);
                         ("errors", JArr (map json_of_verror errors))]) |}.

Definition internal_error (m : string) : response :=
  {| status := 500; headers := [];
     sent := Json (JObj [("success", JBool false);
                         ("message", JStr "Internal server error");
                         ("error", JStr m);
                         ("details", JStr "No additional details available")]) |}.

Definition invalid_domain : response :=
  {| status := 400; headers := [];
     sent := Json (JObj [("success", JBool false);
                         ("error", JStr "Invalid domain format")]) |}.

Definition results_not_found (m : string) : response :=
  {| status := 404; headers := [];
     sent := Json (JObj [("success", JBool false);
                         ("error", JStr "Results not found");
                         ("message", JStr m)]) |}.

Definition file_not_found (d : string) : response :=
  {| status := 404; headers := [];
     sent := Json (JObj [("success", JBool false);
                         ("error", JStr "File not found");
                         ("message", JStr ("Results file for domain " ++ d ++ " not found"))]) |}.

(** The catch-all of line 305, which answers what no route has answered. *)
Definition not_found : response :=
  {| status := 404; headers := [];
     sent := Json (JObj [("success", JBool false);
                         ("error", JStr "Not found");
                         ("message", JStr "The requested resource was not found")]) |}.

(** The page of Express's final handler.  It comes with its own
    [Content-Type], which replaces the one the handler has set; the other
    headers of the handler stay. *)
Definition error_page (code : nat) (set : list (string * string)) : response :=
  {| status := code;
     headers := filter (fun h => negb (fst h =? "Content-Type")%string) set;
     sent := ErrorPage |}.

(** What is answered when [res.download] fails, after the handler has set
    its headers: a directory is passed on with [next()] and reaches the
    catch-all; any other failure is passed on with [next(err)] and Express's
    final handler answers with its page, 404 for a file that is gone and 500
    otherwise. *)
Definition failed_download (f : send_failure) (set : list (string * string)) : response :=
  match f with
  | IsDirectory => {| status := 404; headers := set; sent := sent not_found |}
  | Gone => error_page 404 set
  | Unreadable => error_page 500 set
  end.

Definition attachment (filename : string) : string :=
  "attachment; filename=" ++ quote ++ filename ++ quote.

(** The Report the POST handler makes up when it has nothing to read. *)
Definition empty_report (w : world) (d : string) (fileError : string) : json :=
  JObj [("domain", JStr d);
        ("timestamp", JStr (now_iso w));
        ("total_subdomains", JNum 0);
        ("active_subdomains", JNum 0);
        ("subdomains", JArr []);
        ("active_hosts", JArr []);
        ("errors", JArr [JStr ("Failed to create results file: " ++ fileError)])].

Definition recon_completed (w : world) (resultsData : json) : response :=
  {| status := 200; headers := [];
     sent := Json (JObj [("success", JBool true);
                         ("message", JStr "Reconnaissance completed successfully");
                         ("executionTime", JFrac (end_ms w - start_ms w) 1000);
                         ("results", resultsData)]) |}.

Section Server.

(** The directory of server.js. *)
Variable __dirname : path.

(** [JSON.parse]: the document, or the message of the [SyntaxError]. *)
Variable JSON_parse : string -> result json.

(** The [args] array of [executeScript]. *)
Definition script_args (w : world) (d : jsval) (resultsDir : path)
    (timeout workers verbose jsonOnly csvOnly : jsval) : list jsval :=
  filter not_empty_string
    [ js_or (PYTHON_PATH w) (VStr (render (path_join __dirname ["../scripts/main.py"])));
      d;
      VStr "--output-dir"; VStr (render resultsDir);
      VStr "--timeout"; js_or timeout (VNum 300);
      VStr "--workers"; js_or workers (VNum 20);
      if truthy verbose then VStr "--verbose" else VStr "";
      if truthy jsonOnly then VStr "--json-only" else VStr "";
      if truthy csvOnly then VStr "--csv-only" else VStr "" ].

(** [executeScript]: how its promise has settled once the children's events
    have been delivered ([None]: not at all), and the children it spawned. *)
Definition executeScript (w : world) (d : jsval) (resultsDir : path)
    (timeout workers verbose jsonOnly csvOnly : jsval) : option settled * list effect :=
  let args := script_args w d resultsDir timeout workers verbose jsonOnly csvOnly in
  let st := run (events w) in
  (promise st, map (fun command => Spawn command args) (spawned st)).

Definition readResults (w : world) (resultsDir : path) (d : string) (format : jsval)
  : result results_data * list effect :=
  let filename := results_filename d format in
  let filePath := path_join resultsDir [filename] in
  (match read_file_sync w filePath with
   | Ok data =>
       if is_json format then
         match JSON_parse data with
         | Ok j => Ok (Parsed j)
         | Throw m => Throw ("Failed to read results file: " ++ m)
         end
       else Ok (Raw data)
   | Throw m => Throw ("Failed to read results file: " ++ m)
   end,
   [FsRead filePath]).

(** Lines 188-211 of the POST handler: the report file, else the script's
    output, else the made-up Report. *)
Definition collect_results (w : world) (resultsDir : path) (d : string) (r : script_result)
  : json * list effect :=
  let resultsFilePath := path_join resultsDir [report_name d] in
  let attempt : result json * list effect :=
    match access w resultsFilePath with
    | Some m => (Throw m, [FsAccess resultsFilePath])
    | None =>
        let (data, fx) := readResults w resultsDir d (VStr "json") in
        (match data with Ok x => Ok (as_json x) | Throw m => Throw m end,
         FsAccess resultsFilePath :: fx)
    end in
  match attempt with
  | (Ok j, fx) => (j, fx)
  | (Throw fileError, fx) =>
      match JSON_parse (output r) with
      | Ok j => (j, fx)
      | Throw _ => (empty_report w d fileError, fx)
      end
  end.

(** [app.post('/api/reconnaissance', validateDomain, ...)]: the response, if
    one is ever sent, and what the handler did on the way. *)
Definition post_reconnaissance (b : body) (w : world) : option response * list effect :=
  match validateDomain b with
  | (_ :: _) as errors => (Some (validation_failed errors), [])
  | [] =>
      match domain b with
      | VStr d =>
          match ensureDirectoryExists w (path_join __dirname ["results"; d]) with
          | (Throw m, fx) => (Some (internal_error m), fx)
          | (Ok resultsDir, fx) =>
              let (p, fx2) := executeScript w (domain b) resultsDir (timeout b) (workers b)
                                (verbose b) (jsonOnly b) (csvOnly b) in
              match p with
              | None => (None, fx ++ fx2)
              | Some (Rejected m) => (Some (internal_error m), fx ++ fx2)
              | Some (Resolved r) =>
                  let (resultsData, fx3) := collect_results w resultsDir d r in
                  (Some (recon_completed w resultsData), fx ++ fx2 ++ fx3)
              end
          end
      | v => (Some (internal_error (path_type_error v)), [])
      end
  end%list.

(** [app.get('/api/results/:domain', ...)] *)
Definition get_results (d : string) (query_format : jsval) (w : world)
  : response * list effect :=
  let format := default_format query_format in
  if negb (valid_domain d) then (invalid_domain, [])
  else
    let resultsDir := path_join __dirname ["results"; d] in
    match readResults w resultsDir d format with
    | (Ok resultsData, fx) =>
        if is_json format then
          ({| status := 200; headers := [];
              sent := Json (JObj [("success", JBool true);
                                  ("data", as_json resultsData);
                                  ("metadata", JObj [("domain", JStr d);
                                                     ("format", JStr "json");
                                                     ("timestamp", JStr (now_iso w))])]) |},
           fx)
        else
          ({| status := 200;
              headers := [("Content-Type", "text/csv");
                          ("Content-Disposition", attachment (csv_name d))];
              sent := as_payload resultsData |},
           fx)
    | (Throw m, fx) => (results_not_found m, fx)
    end.

(** [app.get('/api/results/:domain/download', ...)] *)
Definition get_download (d : string) (query_format : jsval) (w : world)
  : response * list effect :=
  let format := default_format query_format in
  if negb (valid_domain d) then (invalid_domain, [])
  else
    let filename := results_filename d format in
    let filePath := path_join __dirname ["results"; d; filename] in
    match access w filePath with
    | None =>
        let set := [("Content-Type",
                     if is_json format then "application/json" else "text/csv");
                    ("Content-Disposition", attachment filename)] in
        (match send_file w filePath with
         | None => {| status := 200; headers := set; sent := File filePath filename |}
         | Some failure => failed_download failure set
         end,
         [FsAccess filePath; FsSend filePath])
    | Some _ => (file_not_found d, [FsAccess filePath])
    end.

(* ================================================================== *)
(** * Properties *)

(** ** The matcher against its reading as a language *)

Definition within (hi : option nat) (n : nat) : Prop :=
  match hi with Some h => (n <= h)%nat | None => True end.

Lemma rep_sound p s : forall lo hi k,
  rep p lo hi s k = true ->
  exists pre post, s = (pre ++ post)%list /\ forallb p pre = true /\
    (lo <= List.length pre)%nat /\ within hi (List.length pre) /\ k post = true.
Proof.
  induction s as [|c s IH]; intros lo hi k H; simpl in H.
  - rewrite orb_false_r in H. destruct lo; [|discriminate].
    exists [], []. repeat split; auto. destruct hi; simpl; lia.
  - apply orb_true_iff in H as [H|H].
    + destruct lo; [|discriminate].
      exists [], (c :: s). repeat split; auto. destruct hi; simpl; lia.
    + apply andb_true_iff in H as [H Hr]. apply andb_true_iff in H as [Hm Hc].
      destruct (IH _ _ _ Hr) as (pre & post & -> & Hp & Hlo & Hhi & Hk).
      exists (c :: pre), post. simpl. rewrite Hc, Hp. repeat split; auto.
      * lia.
      * destruct hi as [[|h]|]; simpl in *; try discriminate; auto; lia.
Qed.

Lemma rep_complete p pre : forall post lo hi k,
  forallb p pre = true -> (lo <= List.length pre)%nat -> within hi (List.length pre) ->
  k post = true -> rep p lo hi (pre ++ post) k = true.
Proof.
  induction pre as [|c pre IH]; intros post lo hi k Hp Hlo Hhi Hk; simpl in *.
  - assert (lo = O) by lia. subst lo. destruct post; simpl; rewrite Hk; reflexivity.
  - apply andb_true_iff in Hp as [Hc Hp]. apply orb_true_iff. right.
    rewrite Hc. rewrite IH; auto.
    + destruct hi as [[|h]|]; simpl in *; auto; lia.
    + lia.
    + destruct hi as [[|h]|]; simpl in *; auto; lia.
Qed.

(** The strings of the domain pattern, piece by piece. *)
Definition domain_shape (l : list ascii) : Prop :=
  exists c mid opt tld,
    l = (c :: mid ++ opt ++ "."%char :: tld)%list /\
    alnum c = true /\
    forallb alnum_dash mid = true /\ (List.length mid <= 61)%nat /\
    forallb alnum opt = true /\ (List.length opt <= 1)%nat /\
    forallb alpha tld = true /\ (2 <= List.length tld)%nat.

Lemma dot_is c : dot c = true -> c = "."%char.
Proof. unfold dot. intros H. now apply Ascii.eqb_eq. Qed.

Lemma valid_domain_shape s : valid_domain s = true <-> domain_shape (chars s).
Proof.
  unfold valid_domain, regex_test, domain_regex. simpl matchk. split.
  - destruct (chars s) as [|c l]; [discriminate|]. intros H.
    apply andb_true_iff in H as [Hc H].
    apply rep_sound in H as (mid & r1 & -> & Hmid & _ & Hm & H).
    apply rep_sound in H as (opt & r2 & -> & Hopt & _ & Ho & H).
    destruct r2 as [|d r2]; [discriminate|].
    apply andb_true_iff in H as [Hd H]. apply dot_is in Hd. subst d.
    apply rep_sound in H as (tld & r3 & -> & Htld & Hlen & _ & H).
    destruct r3; [|discriminate]. rewrite app_nil_r.
    exists c, mid, opt, tld. simpl in *. repeat split; auto.
  - intros (c & mid & opt & tld & -> & Hc & Hmid & Hm & Hopt & Ho & Htld & Hlen).
    rewrite Hc. simpl. apply rep_complete; simpl; auto; try lia.
    apply rep_complete; simpl; auto; try lia.
    rewrite <- (app_nil_r tld). apply rep_complete; simpl; auto.
Qed.

(** Strings and their characters. *)

Lemma chars_app a b : chars (a ++ b) = (chars a ++ chars b)%list.
Proof. induction a; simpl; [reflexivity|]. unfold chars in *. simpl. now f_equal. Qed.

Lemma chars_inj a b : chars a = chars b -> a = b.
Proof.
  intros H. rewrite <- (string_of_list_ascii_of_string a), <- (string_of_list_ascii_of_string b).
  unfold chars in H. now rewrite H.
Qed.

Lemma chars_length s : List.length (chars s) = String.length s.
Proof. induction s; simpl; auto. Qed.

Lemma chars_of l : chars (string_of_list_ascii l) = l.
Proof. apply list_ascii_of_string_of_list_ascii. Qed.

(** The classes are nested, none holds the dot or the slash. *)

Lemma alpha_alnum c : alpha c = true -> alnum c = true.
Proof. unfold alnum. intros ->. reflexivity. Qed.

Lemma alnum_alnum_dash c : alnum c = true -> alnum_dash c = true.
Proof. unfold alnum_dash. intros ->. reflexivity. Qed.

Lemma alnum_dash_not_dot c : alnum_dash c = true -> c <> "."%char.
Proof. intros H ->. vm_compute in H. discriminate. Qed.

Lemma alnum_dash_not_slash c : alnum_dash c = true -> c <> "/"%char.
Proof. intros H ->. vm_compute in H. discriminate. Qed.

Lemma forallb_weaken (p q : ascii -> bool) l :
  (forall c, p c = true -> q c = true) -> forallb p l = true -> forallb q l = true.
Proof.
  intros Hpq H. rewrite forallb_forall in *. auto.
Qed.

(** A character of a domain: of the label class, or the dot. *)
Definition domain_char (c : ascii) : bool := alnum_dash c || dot c.

Definition count_dots (l : list ascii) : nat := List.length (filter dot l).

Lemma no_dots l : forallb alnum_dash l = true -> filter dot l = [].
Proof.
  induction l as [|c l IH]; simpl; auto. intros H.
  apply andb_true_iff in H as [Hc Hl]. rewrite (IH Hl).
  destruct (dot c) eqn:E; auto. apply dot_is in E. now apply alnum_dash_not_dot in Hc.
Qed.

Lemma shape_chars l : domain_shape l -> forallb domain_char l = true.
Proof.
  intros (c & mid & opt & tld & -> & Hc & Hmid & _ & Hopt & _ & Htld & _).
  assert (W : forall x, alnum_dash x = true -> domain_char x = true)
    by (intros x Hx; unfold domain_char; now rewrite Hx).
  simpl. rewrite !forallb_app. simpl.
  rewrite (W c (alnum_alnum_dash _ Hc)).
  rewrite (forallb_weaken _ _ _ W Hmid).
  rewrite (forallb_weaken alnum _ _ (fun x h => W x (alnum_alnum_dash x h)) Hopt).
  rewrite (forallb_weaken alpha _ _
             (fun x h => W x (alnum_alnum_dash x (alpha_alnum x h))) Htld).
  reflexivity.
Qed.

Lemma shape_one_dot l : domain_shape l -> count_dots l = 1%nat.
Proof.
  intros (c & mid & opt & tld & -> & Hc & Hmid & _ & Hopt & _ & Htld & _).
  unfold count_dots. simpl.
  assert (Ec : dot c = false).
  { destruct (dot c) eqn:E; auto. apply dot_is in E.
    now apply alnum_alnum_dash, alnum_dash_not_dot in Hc. }
  rewrite Ec, !filter_app. simpl.
  rewrite (no_dots mid Hmid).
  rewrite (no_dots opt (forallb_weaken _ _ _ alnum_alnum_dash Hopt)).
  rewrite (no_dots tld (forallb_weaken _ _ _
             (fun x h => alnum_alnum_dash x (alpha_alnum x h)) Htld)).
  reflexivity.
Qed.

Lemma domain_char_not_slash c : domain_char c = true -> c <> "/"%char.
Proof. intros H ->. vm_compute in H. discriminate. Qed.

(** ** Paths *)

(** A segment that [path.normalize] keeps as it is. *)
Definition plain (seg : string) : Prop :=
  seg <> ""%string /\ seg <> "."%string /\ seg <> ".."%string.

Lemma push_plain stack seg : plain seg -> push_segment stack seg = (stack ++ [seg])%list.
Proof.
  intros (H1 & H2 & H3). unfold push_segment.
  apply String.eqb_neq in H1, H2, H3. now rewrite H1, H2, H3.
Qed.

Lemma fold_push_plain segs : forall stack,
  Forall plain segs -> fold_left push_segment segs stack = (stack ++ segs)%list.
Proof.
  induction segs as [|x segs IH]; intros stack H; simpl.
  - now rewrite app_nil_r.
  - inversion H; subst. rewrite push_plain by assumption.
    rewrite IH by assumption. now rewrite <- app_assoc.
Qed.

Lemma removelast_plain (l : list string) : Forall plain l -> Forall plain (removelast l).
Proof.
  induction l as [|x l IH]; simpl; auto. intros H. inversion H; subst.
  destruct l; auto.
Qed.

Lemma push_keeps_plain stack seg : Forall plain stack -> Forall plain (push_segment stack seg).
Proof.
  intros H. unfold push_segment.
  destruct (seg =? "")%string eqn:E1; auto.
  destruct (seg =? ".")%string eqn:E2; auto.
  destruct (seg =? "..")%string eqn:E3; [now apply removelast_plain|].
  apply Forall_app. split; auto. constructor; auto.
  apply String.eqb_neq in E1, E2, E3. now repeat split.
Qed.

Lemma fold_push_keeps_plain segs : forall stack,
  Forall plain stack -> Forall plain (fold_left push_segment segs stack).
Proof.
  induction segs; simpl; auto using push_keeps_plain.
Qed.

Lemma normalize_plain segs : Forall plain (normalize segs).
Proof. apply fold_push_keeps_plain. constructor. Qed.

Lemma normalize_app_plain base segs :
  Forall plain segs -> normalize (base ++ segs) = (normalize base ++ segs)%list.
Proof.
  intros H. unfold normalize. rewrite fold_left_app. now apply fold_push_plain.
Qed.

Lemma normalize_fixed p : Forall plain p -> normalize p = p.
Proof. intros H. unfold normalize. now rewrite fold_push_plain. Qed.

(** A string without a slash is one segment. *)
Lemma split_one s :
  Forall (fun c => c <> "/"%char) (chars s) -> split "/" s = [s].
Proof.
  induction s as [|a s IH]; simpl; intros H; auto.
  inversion H; subst. apply Ascii.eqb_neq in H2. rewrite H2.
  unfold chars in IH. now rewrite IH.
Qed.

Lemma path_join_plain base parts :
  Forall plain parts -> Forall (fun s => Forall (fun c => c <> "/"%char) (chars s)) parts ->
  path_join base parts = (normalize base ++ parts)%list.
Proof.
  intros Hp Hs. unfold path_join.
  assert (E : flat_map (split "/") parts = parts).
  { clear Hp. induction Hs; simpl; auto. rewrite split_one by assumption.
    simpl. now f_equal. }
  rewrite E. now apply normalize_app_plain.
Qed.

Lemma long_plain s : (3 <= String.length s)%nat -> plain s.
Proof. intros H. repeat split; intros ->; simpl in H; lia. Qed.

Lemma string_length_app a b : String.length (a ++ b) = (String.length a + String.length b)%nat.
Proof. induction a; simpl; auto. Qed.

Lemma forallb_Forall_not_slash l :
  forallb domain_char l = true -> Forall (fun c => c <> "/"%char) l.
Proof.
  intros H. apply Forall_forall. intros c Hc.
  rewrite forallb_forall in H. now apply domain_char_not_slash, H.
Qed.

Lemma valid_no_slash d :
  valid_domain d = true -> Forall (fun c => c <> "/"%char) (chars d).
Proof.
  intros H. now apply forallb_Forall_not_slash, shape_chars, valid_domain_shape.
Qed.

Lemma valid_length d : valid_domain d = true -> (4 <= String.length d)%nat.
Proof.
  intros H. apply valid_domain_shape in H.
  destruct H as (c & mid & opt & tld & E & _ & _ & _ & _ & _ & _ & Hlen).
  rewrite <- chars_length, E. simpl. rewrite !length_app. simpl. lia.
Qed.

Lemma valid_plain d : valid_domain d = true -> plain d.
Proof. intros H. apply long_plain. apply valid_length in H. lia. Qed.

Lemma filename_no_slash d format :
  valid_domain d = true ->
  Forall (fun c => c <> "/"%char) (chars (results_filename d format)).
Proof.
  intros H. unfold results_filename, report_name, csv_name.
  destruct (is_json format); rewrite chars_app; apply Forall_app; split;
    try (now apply valid_no_slash);
    apply Forall_forall; intros c Hc; simpl in Hc;
    repeat (destruct Hc as [<-|Hc]; [discriminate|]); contradiction.
Qed.

Lemma filename_plain d format : plain (results_filename d format).
Proof.
  apply long_plain. unfold results_filename, report_name, csv_name.
  destruct (is_json format); rewrite string_length_app; simpl; lia.
Qed.

Lemma results_plain : plain "results".
Proof. apply long_plain. simpl. lia. Qed.

Lemma results_no_slash : Forall (fun c => c <> "/"%char) (chars "results").
Proof. repeat constructor; discriminate. Qed.

(** The directory of a domain's results and the files in it, for a domain
    the pattern accepts. *)
Definition results_root : path := (normalize __dirname ++ ["results"])%list.

Lemma results_dir_of d :
  valid_domain d = true ->
  path_join __dirname ["results"; d] = (results_root ++ [d])%list.
Proof.
  intros H. unfold results_root. rewrite <- app_assoc. simpl.
  apply path_join_plain.
  - apply Forall_cons; [apply results_plain|].
    apply Forall_cons; [now apply valid_plain|constructor].
  - apply Forall_cons; [apply results_no_slash|].
    apply Forall_cons; [now apply valid_no_slash|constructor].
Qed.

Lemma results_root_plain : Forall plain results_root.
Proof.
  unfold results_root. apply Forall_app. split; [apply normalize_plain|].
  apply Forall_cons; [apply results_plain|constructor].
Qed.

Lemma results_file_of d format :
  valid_domain d = true ->
  path_join (path_join __dirname ["results"; d]) [results_filename d format]
  = (results_root ++ [d; results_filename d format])%list.
Proof.
  intros H. rewrite results_dir_of by assumption.
  rewrite path_join_plain.
  - rewrite normalize_fixed.
    + now rewrite <- app_assoc.
    + apply Forall_app. split; [apply results_root_plain|].
      apply Forall_cons; [now apply valid_plain|constructor].
  - apply Forall_cons; [apply filename_plain|constructor].
  - apply Forall_cons; [now apply filename_no_slash|constructor].
Qed.

Lemma download_file_of d format :
  valid_domain d = true ->
  path_join __dirname ["results"; d; results_filename d format]
  = (results_root ++ [d; results_filename d format])%list.
Proof.
  intros H. unfold results_root. rewrite <- app_assoc. simpl.
  apply path_join_plain.
  - apply Forall_cons; [apply results_plain|].
    apply Forall_cons; [now apply valid_plain|].
    apply Forall_cons; [apply filename_plain|constructor].
  - apply Forall_cons; [apply results_no_slash|].
    apply Forall_cons; [now apply valid_no_slash|].
    apply Forall_cons; [now apply filename_no_slash|constructor].
Qed.

(** ** Reading and downloading results *)

(** The file an effect touches, if it touches one. *)
Definition effect_path (e : effect) : option path :=
  match e with
  | FsExists p | FsMkdir p | FsAccess p | FsRead p | FsSend p => Some p
  | Spawn _ _ => None
  end.

(** [p] lies strictly below [root]: [root] followed by at least one segment,
    none of them empty, [.] or [..]. *)
Definition inside (root p : path) : Prop :=
  exists rest, p = (root ++ rest)%list /\ rest <> [] /\ Forall plain rest.

Lemma get_results_valid d f w :
  valid_domain d = true ->
  get_results d f w =
    let format := default_format f in
    let file := (results_root ++ [d; results_filename d format])%list in
    match read_file_sync w file with
    | Throw m => (results_not_found ("Failed to read results file: " ++ m), [FsRead file])
    | Ok data =>
        if is_json format then
          match JSON_parse data with
          | Throw m => (results_not_found ("Failed to read results file: " ++ m), [FsRead file])
          | Ok j =>
              ({| status := 200; headers := [];
                  sent := Json (JObj [("success", JBool true);
                                      ("data", j);
                                      ("metadata", JObj [("domain", JStr d);
                                                         ("format", JStr "json");
                                                         ("timestamp", JStr (now_iso w))])]) |},
               [FsRead file])
          end
        else
          ({| status := 200;
              headers := [("Content-Type", "text/csv");
                          ("Content-Disposition", attachment (csv_name d))];
              sent := Text data |},
           [FsRead file])
    end.
Proof.
  intros H. unfold get_results, readResults. rewrite H. cbn [negb].
  rewrite results_file_of by assumption. cbv zeta.
  destruct (read_file_sync w _) as [data|m]; [|reflexivity].
  destruct (is_json (default_format f)) eqn:E.
  - destruct (JSON_parse data); reflexivity.
  - reflexivity.
Qed.

Lemma get_download_valid d f w :
  valid_domain d = true ->
  get_download d f w =
    let format := default_format f in
    let filename := results_filename d format in
    let file := (results_root ++ [d; filename])%list in
    match access w file with
    | None =>
        let set := [("Content-Type",
                     if is_json format then "application/json" else "text/csv");
                    ("Content-Disposition", attachment filename)] in
        (match send_file w file with
         | None => {| status := 200; headers := set; sent := File file filename |}
         | Some failure => failed_download failure set
         end,
         [FsAccess file; FsSend file])
    | Some _ => (file_not_found d, [FsAccess file])
    end.
Proof.
  intros H. unfold get_download. rewrite H. cbn [negb].
  rewrite download_file_of by assumption. reflexivity.
Qed.

Lemma get_results_invalid d f w :
  valid_domain d = false -> get_results d f w = (invalid_domain, []).
Proof. intros H. unfold get_results. now rewrite H. Qed.

Lemma get_download_invalid d f w :
  valid_domain d = false -> get_download d f w = (invalid_domain, []).
Proof. intros H. unfold get_download. now rewrite H. Qed.

Lemma results_file_inside d format :
  valid_domain d = true ->
  inside results_root (results_root ++ [d; results_filename d format])%list.
Proof.
  intros H. exists [d; results_filename d format]. repeat split; try discriminate.
  apply Forall_cons; [now apply valid_plain|].
  apply Forall_cons; [apply filename_plain|constructor].
Qed.

(** ** Numerals *)

Lemma parse_unsigned d :
  d <> Decimal.Nil -> parse_int (NilZero.string_of_uint d) = Some (Z.of_uint d).
Proof.
  intros H. pose proof (NilZero.usu d H) as U.
  destruct d; try contradiction; unfold parse_int;
    cbn [NilZero.string_of_uint NilEmpty.string_of_uint];
    cbn [NilZero.string_of_uint NilEmpty.string_of_uint] in U;
    cbn [Ascii.eqb Bool.eqb]; rewrite U; reflexivity.
Qed.

Lemma parse_numeral n : parse_int (numeral n) = Some n.
Proof.
  unfold numeral. pose proof (DecimalZ.of_to n) as E.
  destruct n as [|p|p]; [reflexivity| |].
  - cbn [Z.to_int NilZero.string_of_int] in *.
    rewrite parse_unsigned by apply DecimalPos.Unsigned.to_uint_nonnil.
    now f_equal.
  - cbn [Z.to_int NilZero.string_of_int] in *.
    unfold parse_int. cbn [Ascii.eqb Bool.eqb].
    rewrite NilZero.usu by apply DecimalPos.Unsigned.to_uint_nonnil.
    cbn [option_map]. f_equal. exact E.
Qed.

Lemma isInt_numeral lo hi n : isInt lo hi (numeral n) = (lo <=? n) && (n <=? hi).
Proof. unfold isInt. now rewrite parse_numeral. Qed.

Lemma uint_no_dot d : Forall (fun c => c <> "."%char) (chars (NilEmpty.string_of_uint d)).
Proof.
  induction d; cbn [NilEmpty.string_of_uint chars list_ascii_of_string];
    constructor; try discriminate; assumption.
Qed.

Lemma numeral_no_dot n : Forall (fun c => c <> "."%char) (chars (numeral n)).
Proof.
  assert (U : forall d, Forall (fun c => c <> "."%char) (chars (NilZero.string_of_uint d))).
  { intros d. destruct d; try apply (uint_no_dot (_ _)).
    repeat constructor; discriminate. }
  unfold numeral. destruct (Z.to_int n); cbn [NilZero.string_of_int]; [apply U|].
  constructor; [discriminate|apply U].
Qed.

Lemma shape_has_dot l : domain_shape l -> In "."%char l.
Proof.
  intros (c & mid & opt & tld & -> & _). right.
  apply in_or_app. right. apply in_or_app. right. now left.
Qed.

(** Only a string passes the domain pattern. *)
Lemma domain_field_is_string v :
  regex_test domain_regex (toString v) = true ->
  (exists d, v = VStr d /\ valid_domain d = true) \/ exists items, v = VArr items.
Proof.
  intros H. destruct v as [| |[|]|n|s|items]; try discriminate.
  - apply valid_domain_shape, shape_has_dot in H. simpl in H.
    pose proof (numeral_no_dot n) as N. rewrite Forall_forall in N.
    now apply N in H.
  - left. now exists s.
  - right. now exists items.
Qed.

(** ** Validation *)

(** The integer a value holds: a number, or a string that reads as one. *)
Definition int_value (v : jsval) : option Z :=
  match v with
  | VNum n => Some n
  | VStr s => parse_int s
  | _ => None
  end.

(** The value holds an integer of [lo..hi]. *)
Definition integer_within (lo hi : Z) (v : jsval) : Prop :=
  exists n, int_value v = Some n /\ lo <= n <= hi.


(** The field is omitted, or every value the validator is run on holds an
    integer of [lo..hi]: the field itself, or each item of an array. *)
Definition accepted_field (lo hi : Z) (v : jsval) : Prop :=
  v = VUndefined \/ Forall (integer_within lo hi) (elements v).

Definition is_array (v : jsval) : bool :=
  match v with VArr _ => true | _ => false end.

Lemma jsval_eq_undefined v : v = VUndefined \/ v <> VUndefined.
Proof. destruct v; [now left|right; discriminate..]. Qed.

Lemma isInt_toString lo hi v :
  is_array v = false ->
  (isInt lo hi (toString v) = true <-> integer_within lo hi v).
Proof.
  unfold integer_within.
  intros Hv. destruct v as [| |[|]|n|s|items]; try discriminate; simpl.
  - split; [discriminate|]. intros (n & [=] & _).
  - split; [discriminate|]. intros (n & [=] & _).
  - split; [discriminate|]. intros (n & [=] & _).
  - split; [discriminate|]. intros (n & [=] & _).
  - rewrite isInt_numeral. split.
    + intros H. exists n. split; auto. lia.
    + intros (m & [= <-] & H). lia.
  - unfold isInt. destruct (parse_int s) as [n|].
    + split.
      * intros H. exists n. split; auto. lia.
      * intros (m & [= <-] & H). lia.
    + split; [discriminate|]. intros (n & [=] & _).
Qed.

Lemma elements_not_arrays v : Forall (fun x => is_array x = false) (elements v).
Proof.
  destruct v; simpl; try (constructor; [reflexivity|constructor]).
  induction items as [|a items IH]; simpl; constructor; auto. now destruct a.
Qed.


(** A validator reports nothing exactly when every element passes its
    test. *)
Lemma validator_ok name test text v :
  validator name test text v = [] <->
  Forall (fun x => test (toString x) = true) (elements v).
Proof.
  unfold validator. induction (elements v) as [|x l IH]; simpl.
  - split; auto.
  - unfold check at 1. destruct (test (toString x)) eqn:E; simpl.
    + rewrite IH. split; [intros H; now constructor|intros H; now inversion H].
    + split; [discriminate|]. intros H. inversion H; subst. congruence.
Qed.

Lemma validator_isInt_ok name lo hi text v :
  validator name (isInt lo hi) text v = [] <-> Forall (integer_within lo hi) (elements v).
Proof.
  rewrite validator_ok. pose proof (elements_not_arrays v) as N.
  induction N as [|x l Hx N IH].
  - split; constructor.
  - split; intros H; inversion H; subst; constructor;
      try (now apply IH); now apply (isInt_toString lo hi x Hx).
Qed.

Lemma optional_validator_ok name lo hi v text :
  optional v (validator name (isInt lo hi) text v) = [] <-> accepted_field lo hi v.
Proof.
  unfold accepted_field. destruct (jsval_eq_undefined v) as [->|Hv].
  - simpl. split; auto.
  - assert (E : optional v (validator name (isInt lo hi) text v)
                = validator name (isInt lo hi) text v) by (destruct v; tauto).
    rewrite E, validator_isInt_ok. split; auto. intros [?|H]; [contradiction|assumption].
Qed.

Lemma validate_timeout_ok b :
  validate_timeout_field b = [] <-> accepted_field 30 300 (timeout b).
Proof. apply optional_validator_ok. Qed.

Lemma validate_workers_ok b :
  validate_workers_field b = [] <-> accepted_field 1 30 (workers b).
Proof. apply optional_validator_ok. Qed.


Lemma alnum_counted a r :
  alnum a = true -> continuation a || selector_at (String a r) = false.
Proof.
  destruct a as [[] [] [] [] [] [] [] []]; intros H; try discriminate H;
    destruct r as [|b [|c r]]; reflexivity.
Qed.

(** A string the pattern accepts is not empty for [isLength]. *)
Lemma valid_isLength d : valid_domain d = true -> isLength 1 d = true.
Proof.
  intros V. apply valid_domain_shape in V as (c & mid & opt & tld & E & Hc & _).
  destruct d as [|a d]; [discriminate|]. simpl in E. injection E as <- _.
  unfold isLength. cbn [counted_length]. now rewrite (alnum_counted a d Hc).
Qed.

(** The domain validators on a string. *)
Lemma validate_domain_string b d :
  domain b = VStr d -> (validate_domain_field b = [] <-> valid_domain d = true).
Proof.
  intros Hd. unfold validate_domain_field, validator. rewrite Hd.
  cbn [elements flat_map toString app]. rewrite !app_nil_r. fold (valid_domain d).
  unfold check. split.
  - destruct (isLength 1 d); [|discriminate]. now destruct (valid_domain d).
  - intros V. now rewrite (valid_isLength d V), V.
Qed.

Lemma validate_domain_ok b :
  validate_domain_field b = [] ->
  (exists d, domain b = VStr d /\ valid_domain d = true) \/ exists items, domain b = VArr items.
Proof.
  intros H. destruct (domain b) as [| |x|n|s|items] eqn:Hd; try (right; now eauto);
    try (left; exists s; split; auto; now apply (validate_domain_string b s Hd));
    apply app_eq_nil in H as [_ H]; apply validator_ok in H; rewrite Hd in H;
    inversion H as [|? ? R _]; subst; apply domain_field_is_string in R;
    destruct R as [(d & [=] & _)|(items & [=])].
Qed.

Lemma validateDomain_parts b :
  validateDomain b = [] <->
  validate_domain_field b = [] /\
  accepted_field 30 300 (timeout b) /\ accepted_field 1 30 (workers b).
Proof.
  unfold validateDomain. rewrite <- validate_timeout_ok, <- validate_workers_ok.
  split.
  - intros H. apply app_eq_nil in H as [H1 H]. apply app_eq_nil in H as [H2 H3]. auto.
  - intros (-> & -> & ->). reflexivity.
Qed.

(** What validation has established of a request whose domain is a
    string. *)
Lemma validated b d :
  validateDomain b = [] -> domain b = VStr d ->
  valid_domain d = true /\
  accepted_field 30 300 (timeout b) /\ accepted_field 1 30 (workers b).
Proof.
  intros V Hd. apply validateDomain_parts in V as (D & T & W).
  repeat split; auto. now apply (validate_domain_string b d Hd).
Qed.

Lemma post_rejects b w :
  validateDomain b <> [] ->
  post_reconnaissance b w = (Some (validation_failed (validateDomain b)), []).
Proof.
  intros H. unfold post_reconnaissance. destruct (validateDomain b); [contradiction|reflexivity].
Qed.

(** ** The launcher *)

Lemma handle_settled c x e : snd (handlePythonProcess c (Some x) e) = Some x.
Proof. destruct e as [| | |[[|?|?]|]]; reflexivity. Qed.

Lemma step_settled st pe x : promise st = Some x -> promise (step st pe) = Some x.
Proof.
  intros H. destruct pe as [[|] e]; unfold step.
  - assert (H1 : promise (on_primary_error st e) = Some x).
    { destruct e; simpl; auto. destruct (_ =? _)%string; simpl; auto. now rewrite H. }
    pose proof (handle_settled (primary (on_primary_error st e)) x e) as K.
    rewrite H1. destruct (handlePythonProcess _ (Some x) e). exact K.
  - destruct (fallback st) as [c0|]; auto.
    pose proof (handle_settled c0 x e) as K.
    rewrite H. destruct (handlePythonProcess c0 (Some x) e). exact K.
Qed.

(** Once settled, a promise stays as it is whatever the children emit. *)
Lemma run_settled evs : forall st x,
  promise st = Some x -> promise (fold_left step evs st) = Some x.
Proof.
  induction evs as [|pe evs IH]; intros st x H; simpl; auto using step_settled.
Qed.

Definition feed (c : capture) (es : list event) : capture :=
  fold_left (fun c e => fst (handlePythonProcess c None e)) es c.

(** Chunks of output from python3 only fill its accumulators. *)
Lemma run_outputs outs : forall st,
  forallb is_output outs = true ->
  fold_left step (map (pair Primary) outs) st =
  {| promise := promise st; primary := feed (primary st) outs;
     fallback := fallback st; spawned := spawned st |}.
Proof.
  induction outs as [|e outs IH]; intros st H; simpl.
  - now destruct st.
  - simpl in H. apply andb_true_iff in H as [He H]. rewrite IH by assumption.
    destruct e; try discriminate; reflexivity.
Qed.

(** The python3 child runs and closes with [code]. *)
Definition exits (evs : list (proc * event)) (outs : list event) (code : option Z) : Prop :=
  forallb is_output outs = true /\
  exists rest, evs = (map (pair Primary) outs ++ (Primary, Close code) :: rest)%list.

Definition completed (c : capture) : script_result :=
  {| success := true; message := "Reconnaissance completed successfully"; output := stdout c |}.

Lemma run_exits evs outs code :
  exits evs outs code ->
  promise (run evs) =
    Some (match code with
          | Some 0 => Resolved (completed (captured outs))
          | _ => Rejected (exit_message code (captured outs))
          end).
Proof.
  intros (Ho & rest & ->). unfold run.
  rewrite fold_left_app, run_outputs by assumption. simpl fold_left at 1.
  apply run_settled. simpl. destruct code as [[|?|?]|]; reflexivity.
Qed.


(** The spawn of python3 fails with ENOENT: the listener of
    [handlePythonProcess] on that child rejects all the same, whatever the
    python child does afterwards. *)
Lemma run_enoent m rest :
  promise (run ((Primary, Error "ENOENT" m) :: rest)) = Some (Rejected (spawn_message m)).
Proof. unfold run. simpl fold_left. now apply run_settled. Qed.

(** python is spawned exactly when python3 emits an ENOENT error. *)
Lemma step_spawned st pe :
  spawned (step st pe) =
  match pe with
  | (Primary, Error code _) =>
      if (code =? "ENOENT")%string then (spawned st ++ ["python"])%list else spawned st
  | _ => spawned st
  end.
Proof.
  destruct pe as [[|] e]; unfold step.
  - destruct (handlePythonProcess _ _ e) eqn:E. simpl.
    destruct e; simpl; auto. destruct (_ =? _)%string; reflexivity.
  - destruct (fallback st); auto. now destruct (handlePythonProcess _ _ e).
Qed.

Definition enoent (pe : proc * event) : bool :=
  match pe with
  | (Primary, Error code _) => (code =? "ENOENT")%string
  | _ => false
  end.

Lemma run_spawned evs : forall st,
  spawned (fold_left step evs st) =
  (spawned st ++ map (fun _ => "python"%string) (filter enoent evs))%list.
Proof.
  induction evs as [|pe evs IH]; intros st; simpl.
  - now rewrite app_nil_r.
  - rewrite IH, step_spawned. destruct pe as [[|] [| |code m|]]; simpl; auto.
    destruct (code =? "ENOENT")%string; simpl; auto. now rewrite <- app_assoc.
Qed.

(** ** The POST handler, step by step *)

(** The results directory exists or can be created. *)
Definition dir_ready (w : world) (dir : path) : Prop :=
  exists_sync w dir = true \/ mkdir_sync w dir = None.

Definition dir_effects (w : world) (dir : path) : list effect :=
  if exists_sync w dir then [FsExists dir] else [FsExists dir; FsMkdir dir].

Lemma ensure_ready w dir :
  dir_ready w dir -> ensureDirectoryExists w dir = (Ok dir, dir_effects w dir).
Proof.
  unfold ensureDirectoryExists, dir_effects. intros [H|H]; rewrite H; auto.
  destruct (exists_sync w dir); reflexivity.
Qed.

Lemma ensure_fails w dir m :
  exists_sync w dir = false -> mkdir_sync w dir = Some m ->
  ensureDirectoryExists w dir = (Throw m, dir_effects w dir).
Proof.
  unfold ensureDirectoryExists, dir_effects. intros -> ->. reflexivity.
Qed.

Definition report_file (d : string) : path := (results_root ++ [d; report_name d])%list.

(** The second and third choice of the handler: the script's output if it
    parses, else the made-up Report carrying why the file could not be had. *)
Definition from_output (w : world) (d : string) (r : script_result) (fileError : string) : json :=
  match JSON_parse (output r) with
  | Ok j => j
  | Throw _ => empty_report w d fileError
  end.

Definition chosen_results (w : world) (d : string) (r : script_result) : json :=
  match access w (report_file d) with
  | Some m => from_output w d r m
  | None =>
      match read_file_sync w (report_file d) with
      | Throw m => from_output w d r ("Failed to read results file: " ++ m)
      | Ok data =>
          match JSON_parse data with
          | Ok j => j
          | Throw m => from_output w d r ("Failed to read results file: " ++ m)
          end
      end
  end.

Definition results_effects (w : world) (d : string) : list effect :=
  match access w (report_file d) with
  | Some _ => [FsAccess (report_file d)]
  | None => [FsAccess (report_file d); FsRead (report_file d)]
  end.

Lemma collect_results_of w d r :
  valid_domain d = true ->
  collect_results w (path_join __dirname ["results"; d]) d r
  = (chosen_results w d r, results_effects w d).
Proof.
  intros H. unfold collect_results, readResults, chosen_results, results_effects.
  pose proof (results_file_of d (VStr "json") H) as E.
  change (results_filename d (VStr "json")) with (report_name d) in E.
  change (results_filename d (VStr "json")) with (report_name d).
  rewrite E. fold (report_file d). cbn [is_json String.eqb Ascii.eqb Bool.eqb].
  unfold from_output.
  destruct (access w (report_file d)) as [m|].
  - destruct (JSON_parse (output r)); reflexivity.
  - destruct (read_file_sync w (report_file d)) as [data|m].
    + destruct (JSON_parse data) as [j|m]; [reflexivity|].
      destruct (JSON_parse (output r)); reflexivity.
    + destruct (JSON_parse (output r)); reflexivity.
Qed.

(** The argument list of both children for the request [b]. *)
Definition request_args (w : world) (b : body) (d : string) : list jsval :=
  script_args w (VStr d) (results_root ++ [d])%list (timeout b) (workers b)
    (verbose b) (jsonOnly b) (csvOnly b).

Definition spawns (w : world) (b : body) (d : string) : list effect :=
  map (fun command => Spawn command (request_args w b d)) (spawned (run (events w))).

Lemma post_accepted b w d :
  validateDomain b = [] -> domain b = VStr d ->
  post_reconnaissance b w =
    match ensureDirectoryExists w (results_root ++ [d])%list with
    | (Throw m, fx) => (Some (internal_error m), fx)
    | (Ok _, fx) =>
        match promise (run (events w)) with
        | None => (None, fx ++ spawns w b d)
        | Some (Rejected m) => (Some (internal_error m), fx ++ spawns w b d)
        | Some (Resolved r) =>
            (Some (recon_completed w (chosen_results w d r)),
             fx ++ spawns w b d ++ results_effects w d)
        end
    end%list.
Proof.
  intros Hv Hd. destruct (validated b d Hv Hd) as (Hok & _).
  unfold post_reconnaissance. rewrite Hv, Hd.
  pose proof (results_dir_of d Hok) as E.
  unfold ensureDirectoryExists. rewrite E.
  destruct (exists_sync w _); [|destruct (mkdir_sync w _); [reflexivity|]];
    unfold executeScript; rewrite <- E, <- Hd;
    (destruct (promise (run (events w))) as [[r|m]|];
     [rewrite Hd, collect_results_of by assumption|..]);
    unfold spawns, request_args; rewrite ?E, ?Hd; reflexivity.
Qed.

(** ** Substrings *)


Lemma prefix_split t : forall s, String.prefix t s = true -> exists r, s = t ++ r.
Proof.
  induction t as [|a t IH]; intros s H.
  - now exists s.
  - destruct s as [|b s]; [discriminate|]. simpl in H.
    destruct (ascii_dec a b) as [<-|]; [|discriminate].
    destruct (IH _ H) as (r & ->). now exists r.
Qed.



Lemma includes_split t s : includes t s = true -> exists a r, s = a ++ t ++ r.
Proof.
  induction s as [|c s IH]; cbn [includes]; intros H.
  - rewrite orb_false_r in H. apply prefix_split in H as (r & ->).
    now exists "", r.
  - apply orb_true_iff in H as [H|H].
    + apply prefix_split in H as (r & ->). now exists "", r.
    + destruct (IH H) as (a & r & ->). now exists (String c a), r.
Qed.

Lemma string_app_assoc (a b c : string) : (a ++ b) ++ c = a ++ b ++ c.
Proof. induction a; simpl; [reflexivity|now f_equal]. Qed.

Lemma count_dots_app a b : count_dots (a ++ b) = (count_dots a + count_dots b)%nat.
Proof. unfold count_dots. now rewrite filter_app, length_app. Qed.

(** Two dots in a row are two dots. *)
Lemma dot_dot_counts d : includes ".." d = true -> (2 <= count_dots (chars d))%nat.
Proof.
  intros H. apply includes_split in H as (a & r & ->).
  rewrite !chars_app, !count_dots_app.
  change (count_dots (chars "..")) with 2%nat. lia.
Qed.

(** ** What the domain pattern accepts *)

(** One label: 1 to 63 characters of [[a-zA-Z0-9-]], the first a letter or
    digit, and the last one too when the label is 63 long. *)
Definition label_ok (l : list ascii) : Prop :=
  exists c rest,
    l = c :: rest /\ alnum c = true /\ forallb alnum_dash rest = true /\
    (List.length rest <= 62)%nat /\
    (List.length rest = 62%nat -> alnum (last rest c) = true).

(** One such label, one dot, two or more letters. *)
Definition single_label_domain (s : string) : Prop :=
  exists label tld,
    s = label ++ "." ++ tld /\ label_ok (chars label) /\
    forallb alpha (chars tld) = true /\ (2 <= String.length tld)%nat.

Lemma shape_single_label s : domain_shape (chars s) <-> single_label_domain s.
Proof.
  split.
  - intros (c & mid & opt & tld & E & Hc & Hmid & Hm & Hopt & Ho & Htld & Hlen).
    exists (string_of_list_ascii (c :: mid ++ opt)), (string_of_list_ascii tld).
    repeat split.
    + apply chars_inj. rewrite E, !chars_app, !chars_of. simpl.
      now rewrite <- app_assoc.
    + rewrite chars_of. exists c, (mid ++ opt)%list. repeat split; auto.
      * rewrite forallb_app, Hmid. simpl.
        apply (forallb_weaken _ _ _ alnum_alnum_dash Hopt).
      * rewrite length_app. lia.
      * rewrite length_app. intros L.
        destruct opt as [|x [|y opt]]; simpl in *; try lia.
        rewrite last_last. now rewrite andb_true_r in Hopt.
    + now rewrite chars_of.
    + now rewrite <- chars_length, chars_of.
  - intros (label & tld & -> & (c & rest & El & Hc & Hrest & Hr & Hlast) & Htld & Hlen).
    rewrite !chars_app, El. simpl.
    destruct (Nat.eq_dec (List.length rest) 62) as [L|L].
    + assert (N : rest <> []) by (intros ->; discriminate).
      pose proof (app_removelast_last c N) as R.
      exists c, (removelast rest), [last rest c], (chars tld).
      rewrite R in Hrest. rewrite forallb_app in Hrest.
      apply andb_true_iff in Hrest as [Hmid _].
      assert (Lm : List.length (removelast rest) = 61%nat).
      { rewrite R in L. rewrite length_app in L. simpl in L. lia. }
      repeat split; auto.
      * rewrite app_assoc, <- R. reflexivity.
      * lia.
      * simpl. now rewrite (Hlast L).
      * now rewrite chars_length.
    + exists c, rest, [], (chars tld). repeat split; auto.
      * lia.
      * now rewrite chars_length.
Qed.

Lemma valid_single_label s : valid_domain s = true <-> single_label_domain s.
Proof. rewrite valid_domain_shape. apply shape_single_label. Qed.

(* ================================================================== *)
(** * The claims *)

Definition timeout_error : verror :=
  {| field := "timeout"; msg := "Timeout must be between 30 and 300 seconds" |}.


(** Every error of a validator is its own. *)
Lemma validator_errors name test text v e :
  In e (validator name test text v) -> e = {| field := name; msg := text |}.
Proof.
  unfold validator. intros H. apply in_flat_map in H as (x & _ & H).
  unfold check in H. destruct (test (toString x)); [contradiction|].
  destruct H as [<-|[]]. reflexivity.
Qed.



(** The body of a 400 answer lists every error of the validation. *)
Lemma lists_reported (errors : list verror) (e : verror) :
  In e errors -> lists_error (map json_of_verror errors) (field e) (msg e).
Proof.
  intros H. exists (json_of_verror e). split; [|split; reflexivity].
  apply in_map_iff. exists e. auto.
Qed.


(** A label that starts and ends with a letter or digit. *)
Definition strict_label (l : list ascii) : Prop :=
  exists c rest,
    l = c :: rest /\ alnum c = true /\ forallb alnum_dash rest = true /\
    (List.length rest <= 62)%nat /\ alnum (last rest c) = true.

(** A label that starts with a letter or digit. *)
Definition loose_label (l : list ascii) : Prop :=
  exists c rest,
    l = c :: rest /\ alnum c = true /\ forallb alnum_dash rest = true /\
    (List.length rest <= 62)%nat.

(** One label of the kind [label], one dot, two or more letters. *)
Definition label_dot_letters (label : list ascii -> Prop) (s : string) : Prop :=
  exists l tld,
    s = l ++ "." ++ tld /\ label (chars l) /\
    forallb alpha (chars tld) = true /\ (2 <= String.length tld)%nat.

Lemma strict_is_single_label s :
  label_dot_letters strict_label s -> single_label_domain s.
Proof.
  intros (l & tld & E & (c & rest & El & Hc & Hr & Hl & Hlast) & T).
  exists l, tld. split; [assumption|]. split; [|assumption].
  exists c, rest. repeat split; auto.
Qed.

Lemma single_label_is_loose s :
  single_label_domain s -> label_dot_letters loose_label s.
Proof.
  intros (l & tld & E & (c & rest & El & Hc & Hr & Hl & _) & T).
  exists l, tld. split; [assumption|]. split; [|assumption].
  exists c, rest. repeat split; auto.
Qed.

(** C4, as the code has it.  The domain validators of a POST request pass a
    string made of one label of 1 to 63 characters of [[a-zA-Z0-9-]] that
    starts and ends with a letter or digit, one dot and two or more letters.
    A string that is not one label of 1 to 63 characters of [[a-zA-Z0-9-]]
    starting with a letter or digit, one dot and two or more letters is
    answered 400 with [Invalid domain format] in the body, and nothing is
    done for it, so no child process is spawned. *)
Theorem domain_validation (b : body) (w : world) (s : string) :
  domain b = VStr s ->
  (label_dot_letters strict_label s -> validate_domain_field b = []) /\
  (~ label_dot_letters loose_label s ->
   exists errs,
     post_reconnaissance b w
     = (Some {| status := 400; headers := [];
                sent := Json (JObj [("success", JBool false); ("errors", JArr errs)]) |},
        []) /\
     lists_error errs "domain" "Invalid domain format").
Proof.
  intros Hd. pose proof (validate_domain_string b s Hd) as E. split.
  - intros H. now apply E, valid_single_label, strict_is_single_label.
  - intros Hn.
    assert (V : valid_domain s = false).
    { destruct (valid_domain s) eqn:V; auto.
      now apply valid_single_label, single_label_is_loose in V. }
    assert (I : In {| field := "domain"; msg := "Invalid domain format" |} (validateDomain b)).
    { unfold validateDomain, validate_domain_field. apply in_or_app. left.
      apply in_or_app. right. unfold validator. rewrite Hd.
      cbn [elements flat_map toString]. fold (valid_domain s). rewrite V. now left. }
    assert (N : validateDomain b <> []) by (intros K; rewrite K in I; contradiction).
    rewrite (post_rejects b w N).
    exists (map json_of_verror (validateDomain b)). split; [reflexivity|].
    exact (lists_reported _ {| field := "domain"; msg := "Invalid domain format" |} I).
Qed.

Lemma json_format f : is_json (default_format f) = true <-> f = VUndefined \/ f = VStr "json".
Proof.
  destruct f as [| |?|?|s|?]; simpl; split; auto; try discriminate;
    try (intros [?|?]; discriminate).
  - intros H. apply String.eqb_eq in H. subst. now right.
  - intros [?|[= ->]]; [discriminate|reflexivity].
Qed.

Lemma ensure_effects w dir : snd (ensureDirectoryExists w dir) = dir_effects w dir.
Proof.
  unfold ensureDirectoryExists, dir_effects.
  destruct (exists_sync w dir); [|destruct (mkdir_sync w dir)]; reflexivity.
Qed.

(** Everything the handler does for an accepted request: the directory, the
    children, the report file. *)
Lemma post_effects b w d :
  validateDomain b = [] -> domain b = VStr d ->
  incl (snd (post_reconnaissance b w))
       (dir_effects w (results_root ++ [d]) ++ spawns w b d ++ results_effects w d)%list.
Proof.
  intros V Hd. rewrite (post_accepted b w d V Hd).
  pose proof (ensure_effects w (results_root ++ [d])%list) as E.
  destruct (ensureDirectoryExists w (results_root ++ [d])%list) as [[dir|m] fx];
    simpl in E; subst fx.
  - destruct (promise (run (events w))) as [[r|m]|]; simpl snd.
    + apply incl_refl.
    + rewrite (app_assoc (dir_effects _ _)). apply incl_appl, incl_refl.
    + rewrite (app_assoc (dir_effects _ _)). apply incl_appl, incl_refl.
  - simpl snd. apply incl_appl, incl_refl.
Qed.

Lemma post_file_effects b w d e p :
  domain b = VStr d -> In e (snd (post_reconnaissance b w)) ->
  e = FsAccess p \/ e = FsRead p -> p = report_file d.
Proof.
  intros Hd Hin He. destruct (validateDomain b) eqn:V.
  - apply (post_effects b w d V Hd) in Hin.
    apply in_app_or in Hin as [Hin|Hin]; [|apply in_app_or in Hin as [Hin|Hin]].
    + unfold dir_effects in Hin. destruct (exists_sync w _); simpl in Hin;
        decompose [or] Hin; subst; destruct He; try discriminate; contradiction.
    + unfold spawns in Hin. apply in_map_iff in Hin as (c & <- & _).
      destruct He; discriminate.
    + unfold results_effects in Hin. destruct (access w _); simpl in Hin;
        decompose [or] Hin; subst; destruct He; try congruence; contradiction.
  - rewrite post_rejects in Hin by (rewrite V; discriminate). contradiction.
Qed.

Definition results_file (d : string) (f : jsval) : path :=
  (results_root ++ [d; results_filename d (default_format f)])%list.

Lemma get_results_touches d f w e p :
  In e (snd (get_results d f w)) -> effect_path e = Some p -> p = results_file d f.
Proof.
  intros Hin Hp. destruct (valid_domain d) eqn:V.
  - rewrite get_results_valid in Hin by assumption. cbv zeta in Hin.
    fold (results_file d f) in Hin.
    destruct (read_file_sync w _); [destruct (is_json _); [destruct (JSON_parse _)|]|];
      simpl in Hin; destruct Hin as [<-|[]]; simpl in Hp; congruence.
  - rewrite get_results_invalid in Hin by assumption. contradiction.
Qed.

Lemma get_download_touches d f w e p :
  In e (snd (get_download d f w)) -> effect_path e = Some p -> p = results_file d f.
Proof.
  intros Hin Hp. destruct (valid_domain d) eqn:V.
  - rewrite get_download_valid in Hin by assumption. cbv zeta in Hin.
    fold (results_file d f) in Hin.
    destruct (access w _); simpl in Hin; decompose [or] Hin; subst;
      simpl in Hp; try congruence; contradiction.
  - rewrite get_download_invalid in Hin by assumption. contradiction.
Qed.

(** C7.  The file a request reads or downloads is fixed by the domain and
    the format: [{domain}_reconnaissance_report.json] when the format is
    ['json'] (the default of an omitted format), [{domain}_subdomains.csv]
    for every other format, in the directory [results/{domain}] next to
    server.js.  The two GET handlers touch no other file, they do touch it
    for a domain the pattern accepts, and the POST handler reads the JSON
    report of its domain only. *)
Theorem result_file_names (d : string) (f : jsval) (w : world) :
  let name := if is_json (default_format f)
              then d ++ "_reconnaissance_report.json" else d ++ "_subdomains.csv" in
  let file := (normalize __dirname ++ ["results"; d; name])%list in
  let report := (normalize __dirname ++
                 ["results"; d; (d ++ "_reconnaissance_report.json")%string])%list in
  (is_json (default_format f) = true <-> f = VUndefined \/ f = VStr "json") /\
  (forall e p, In e (snd (get_results d f w)) -> effect_path e = Some p -> p = file) /\
  (forall e p, In e (snd (get_download d f w)) -> effect_path e = Some p -> p = file) /\
  (valid_domain d = true ->
   snd (get_results d f w) = [FsRead file] /\
   In (FsAccess file) (snd (get_download d f w))) /\
  (forall b e p, domain b = VStr d -> In e (snd (post_reconnaissance b w)) ->
     e = FsAccess p \/ e = FsRead p -> p = report).
Proof.
  intros name file report.
  assert (F : file = results_file d f).
  { unfold file, name, results_file, results_root, results_filename, report_name, csv_name.
    now rewrite <- app_assoc. }
  split; [apply json_format|]. split; [|split; [|split]].
  - intros e p Hin Hp. rewrite F. now apply (get_results_touches d f w e).
  - intros e p Hin Hp. rewrite F. now apply (get_download_touches d f w e).
  - intros V. rewrite get_results_valid, get_download_valid by assumption.
    cbv zeta. fold (results_file d f). rewrite <- F. split.
    + destruct (read_file_sync w file); [destruct (is_json _); [destruct (JSON_parse _)|]|];
        reflexivity.
    + destruct (access w file); simpl; auto.
  - intros b e p Hd Hin He. rewrite (post_file_effects b w d e p Hd Hin He).
    unfold report, report_file, results_root, report_name. now rewrite <- app_assoc.
Qed.

Lemma outside_class_invalid d c :
  In c (chars d) -> domain_char c = false -> valid_domain d = false.
Proof.
  intros Hin Hc. destruct (valid_domain d) eqn:V; auto.
  apply valid_domain_shape, shape_chars in V. rewrite forallb_forall in V.
  rewrite (V c Hin) in Hc. discriminate.
Qed.

Lemma dots_invalid d : count_dots (chars d) <> 1%nat -> valid_domain d = false.
Proof.
  intros H. destruct (valid_domain d) eqn:V; auto.
  now apply valid_domain_shape, shape_one_dot in V.
Qed.

(** C9.  Both GET handlers answer 400, before touching the file system, a
    domain parameter that holds a character other than [[a-zA-Z0-9-]] and
    the dot, or a number of dots other than one; so they do for a slash and
    for two dots in a row.  Every file they touch lies strictly below the
    results directory. *)
Theorem results_paths_confined (d : string) (f : jsval) (w : world) :
  ((exists c, In c (chars d) /\ domain_char c = false) \/
   count_dots (chars d) <> 1%nat \/
   In "/"%char (chars d) \/ includes ".." d = true ->
   get_results d f w = (invalid_domain, []) /\
   get_download d f w = (invalid_domain, []) /\
   status invalid_domain = 400%nat) /\
  (forall e p, In e (snd (get_results d f w) ++ snd (get_download d f w))%list ->
     effect_path e = Some p -> inside (normalize __dirname ++ ["results"])%list p).
Proof.
  split.
  - intros H. assert (V : valid_domain d = false).
    { destruct H as [(c & Hin & Hc)|[H|[H|H]]].
      - now apply (outside_class_invalid d c).
      - now apply dots_invalid.
      - now apply (outside_class_invalid d "/"%char).
      - apply dots_invalid. apply dot_dot_counts in H. lia. }
    now rewrite get_results_invalid, get_download_invalid.
  - intros e p Hin Hp. destruct (valid_domain d) eqn:V.
    + assert (E : p = results_file d f).
      { apply in_app_or in Hin as [Hin|Hin];
          [apply (get_results_touches d f w e)|apply (get_download_touches d f w e)];
          assumption. }
      rewrite E. now apply results_file_inside.
    + rewrite get_results_invalid, get_download_invalid in Hin by assumption. contradiction.
Qed.

(** C10.  For a domain the pattern accepts, GET /api/results/:domain answers
    404 with [success: false] when the results file cannot be read or, for
    the format ['json'], is not JSON; otherwise it answers with the parsed
    document wrapped with its metadata for ['json'], and with the body of
    the file, [Content-Type: text/csv] and an attachment
    [Content-Disposition] for any other format. *)
Theorem get_results_outcome (d : string) (f : jsval) (w : world) :
  valid_domain d = true ->
  let format := default_format f in
  let file := (normalize __dirname ++ ["results"; d; results_filename d format])%list in
  let not_found m :=
    {| status := 404; headers := [];
       sent := Json (JObj [("success", JBool false);
                           ("error", JStr "Results not found");
                           ("message", JStr ("Failed to read results file: " ++ m))]) |} in
  fst (get_results d f w) =
    match read_file_sync w file with
    | Throw m => not_found m
    | Ok data =>
        if is_json format then
          match JSON_parse data with
          | Throw m => not_found m
          | Ok j =>
              {| status := 200; headers := [];
                 sent := Json (JObj [("success", JBool true);
                                     ("data", j);
                                     ("metadata", JObj [("domain", JStr d);
                                                        ("format", JStr "json");
                                                        ("timestamp", JStr (now_iso w))])]) |}
          end
        else
          {| status := 200;
             headers := [("Content-Type", "text/csv");
                         ("Content-Disposition",
                          "attachment; filename=" ++ quote ++ (d ++ "_subdomains.csv") ++ quote)];
             sent := Text data |}
    end.
Proof.
  intros V format file not_found. rewrite get_results_valid by assumption. cbv zeta.
  assert (F : (results_root ++ [d; results_filename d (default_format f)])%list = file).
  { unfold file, format, results_root. now rewrite <- app_assoc. }
  rewrite F. fold format.
  destruct (read_file_sync w file); [destruct (is_json format); [destruct (JSON_parse _)|]|];
    reflexivity.
Qed.

(** ** The argument list *)

Lemma render_not_empty p : render p <> ""%string.
Proof. destruct p as [|a [|b p]]; discriminate. Qed.

Lemma not_empty_VStr s : s <> ""%string -> not_empty_string (VStr s) = true.
Proof. intros H. simpl. apply String.eqb_neq in H. now rewrite H. Qed.

Lemma js_or_not_empty v s : s <> ""%string -> not_empty_string (js_or v (VStr s)) = true.
Proof.
  intros H. unfold js_or. destruct (truthy v) eqn:T.
  - destruct v; auto.
  - now apply not_empty_VStr.
Qed.

(** The field itself when the request has it, the default otherwise. *)
Definition or_default (v dflt : jsval) : jsval :=
  match v with VUndefined => dflt | _ => v end.

Lemma within_js_or lo hi v dflt :
  0 < lo -> accepted_field lo hi v ->
  js_or v dflt = or_default v dflt /\
  (not_empty_string dflt = true -> not_empty_string (or_default v dflt) = true).
Proof.
  intros Hlo [->|H]; [split; auto|].
  destruct v as [| |?|m|s|items]; try (split; [reflexivity|auto]);
    simpl in H; inversion H as [|? ? (n & Hn & Hr) _]; subst; try discriminate;
    simpl in Hn.
  - injection Hn as ->. unfold js_or. simpl.
    destruct (Z.eqb_spec n 0); [lia|]. split; auto.
  - destruct s as [|a s]; [discriminate|]. split; auto.
Qed.

Definition flag (v : jsval) (name : string) : list jsval :=
  if truthy v then [VStr name] else [].

Lemma script_args_of w b d :
  valid_domain d = true ->
  accepted_field 30 300 (timeout b) -> accepted_field 1 30 (workers b) ->
  request_args w b d =
    ([ js_or (PYTHON_PATH w) (VStr (render (path_join __dirname ["../scripts/main.py"])));
       VStr d;
       VStr "--output-dir"; VStr (render (results_root ++ [d]));
       VStr "--timeout"; or_default (timeout b) (VNum 300);
       VStr "--workers"; or_default (workers b) (VNum 20) ]
     ++ flag (verbose b) "--verbose"
     ++ flag (jsonOnly b) "--json-only"
     ++ flag (csvOnly b) "--csv-only")%list.
Proof.
  intros V Ht Hw. unfold request_args, script_args.
  destruct (within_js_or 30 300 (timeout b) (VNum 300)) as [-> T]; [lia|assumption|].
  destruct (within_js_or 1 30 (workers b) (VNum 20)) as [-> W]; [lia|assumption|].
  cbn [filter]. rewrite js_or_not_empty by apply render_not_empty.
  rewrite (not_empty_VStr d) by (pose proof (valid_length d V); intros ->; simpl in *; lia).
  rewrite (not_empty_VStr (render _)) by apply render_not_empty.
  rewrite T, W by reflexivity.
  cbn [not_empty_string String.eqb Ascii.eqb Bool.eqb negb]. unfold flag.
  destruct (truthy (verbose b)), (truthy (jsonOnly b)), (truthy (csvOnly b)); reflexivity.
Qed.

Lemma python3_spawned evs : In "python3"%string (spawned (run evs)).
Proof. unfold run. rewrite run_spawned. now left. Qed.

Lemma spawn_in_post b w d c args :
  validateDomain b = [] -> domain b = VStr d ->
  In (Spawn c args) (snd (post_reconnaissance b w)) -> args = request_args w b d.
Proof.
  intros V Hd Hin. apply (post_effects b w d V Hd) in Hin.
  apply in_app_or in Hin as [Hin|Hin]; [|apply in_app_or in Hin as [Hin|Hin]].
  - unfold dir_effects in Hin. destruct (exists_sync w _); simpl in Hin;
      decompose [or] Hin; try discriminate; contradiction.
  - unfold spawns in Hin. apply in_map_iff in Hin as (c' & [= _ <-] & _). reflexivity.
  - unfold results_effects in Hin. destruct (access w _); simpl in Hin;
      decompose [or] Hin; try discriminate; contradiction.
Qed.

Lemma post_spawns_python3 b w d :
  validateDomain b = [] -> domain b = VStr d -> dir_ready w (results_root ++ [d])%list ->
  In (Spawn "python3" (request_args w b d)) (snd (post_reconnaissance b w)).
Proof.
  intros V Hd R. rewrite (post_accepted b w d V Hd), (ensure_ready _ _ R).
  assert (S : In (Spawn "python3" (request_args w b d)) (spawns w b d)).
  { unfold spawns. apply in_map_iff. exists "python3"%string. split; auto.
    apply python3_spawned. }
  destruct (promise (run (events w))) as [[r|m]|]; simpl snd;
    apply in_or_app; right; auto. apply in_or_app. now left.
Qed.

Lemma post_array_domain b w items :
  validateDomain b = [] -> domain b = VArr items ->
  post_reconnaissance b w = (Some (internal_error (path_type_error (domain b))), []).
Proof.
  intros V Hd. unfold post_reconnaissance. rewrite V, Hd. reflexivity.
Qed.

(** A request that passes validation has a string for a domain, or an array
    of them, on which [path.join] throws before anything is done. *)
Lemma validated_domain b w :
  validateDomain b = [] ->
  (exists d, domain b = VStr d /\ valid_domain d = true) \/
  (exists items, domain b = VArr items /\
     post_reconnaissance b w = (Some (internal_error (path_type_error (domain b))), [])).
Proof.
  intros V. pose proof (proj1 (validateDomain_parts b) V) as (D & _).
  destruct (validate_domain_ok b D) as [H|(items & H)]; [now left|right].
  exists items. split; [assumption|]. now apply (post_array_domain b w items).
Qed.

(** C8.  For an accepted POST request every child process gets the same
    argument list: the script path, the domain, [--output-dir] with the
    results directory of the domain, [--timeout] with the request's timeout
    or 300 when it has none, [--workers] with the request's workers or 20
    when it has none, then [--verbose], [--json-only] and [--csv-only], each
    exactly when its flag is truthy.  python3 is spawned with it as soon as
    the results directory is there.  (A request whose domain is an array of
    accepted strings passes validation too: [path.join] throws on it and
    nothing is spawned.) *)
Theorem script_arguments (b : body) (w : world) :
  validateDomain b = [] ->
  (exists d, domain b = VStr d /\
    let resultsDir := (normalize __dirname ++ ["results"; d])%list in
    let script := js_or (PYTHON_PATH w)
                    (VStr (render (path_join __dirname ["../scripts/main.py"]))) in
    let expected :=
      ([ script; VStr d;
         VStr "--output-dir"; VStr (render resultsDir);
         VStr "--timeout"; or_default (timeout b) (VNum 300);
         VStr "--workers"; or_default (workers b) (VNum 20) ]
       ++ (if truthy (verbose b) then [VStr "--verbose"] else [])
       ++ (if truthy (jsonOnly b) then [VStr "--json-only"] else [])
       ++ (if truthy (csvOnly b) then [VStr "--csv-only"] else []))%list in
    (forall command args,
       In (Spawn command args) (snd (post_reconnaissance b w)) -> args = expected) /\
    (dir_ready w resultsDir ->
       In (Spawn "python3" expected) (snd (post_reconnaissance b w)))) \/
  (exists items, domain b = VArr items /\ snd (post_reconnaissance b w) = []).
Proof.
  intros V. destruct (validated_domain b w V) as [(d & Hd & Hv)|(items & Hd & P)];
    [left|right; exists items; split; [assumption|now rewrite P]].
  destruct (validated b d V Hd) as (_ & Ht & Hw).
  exists d. split; [assumption|]. intros resultsDir script expected.
  assert (R : resultsDir = (results_root ++ [d])%list).
  { unfold resultsDir, results_root. now rewrite <- app_assoc. }
  assert (E : request_args w b d = expected).
  { rewrite (script_args_of w b d Hv Ht Hw). unfold expected, script, flag. now rewrite R. }
  split.
  - intros c args Hin. rewrite <- E. now apply (spawn_in_post b w d c).
  - intros Hr. rewrite <- E. apply post_spawns_python3; auto. now rewrite <- R.
Qed.

(** ** How a run ends *)

Lemma string_app_nil_r (s : string) : s ++ "" = s.
Proof. induction s; simpl; [reflexivity|now f_equal]. Qed.




Lemma post_outcome b w d :
  validateDomain b = [] -> domain b = VStr d -> dir_ready w (results_root ++ [d])%list ->
  fst (post_reconnaissance b w) =
    match promise (run (events w)) with
    | None => None
    | Some (Rejected m) => Some (internal_error m)
    | Some (Resolved r) => Some (recon_completed w (chosen_results w d r))
    end.
Proof.
  intros V Hd R. rewrite (post_accepted b w d V Hd), (ensure_ready _ _ R).
  destruct (promise (run (events w))) as [[r|m]|]; reflexivity.
Qed.

(** When python3 itself runs and closes with code 0, the handler answers 200
    with the report file if it is there and parses, else the script's
    output if that parses, else the made-up Report. *)
Lemma post_exit_zero b w d outs :
  validateDomain b = [] -> domain b = VStr d -> dir_ready w (results_root ++ [d])%list ->
  exits (events w) outs (Some 0) ->
  fst (post_reconnaissance b w)
  = Some (recon_completed w (chosen_results w d (completed (captured outs)))).
Proof.
  intros V Hd R X. rewrite (post_outcome b w d V Hd R). now rewrite (run_exits _ _ _ X).
Qed.


(** C1, where the code departs from it.  When python3 is missing, the
    handler answers 500 for an accepted request whatever the python child
    does afterwards, also when it closes with code 0: the listener that
    [handlePythonProcess] registered on the python3 child has rejected the
    promise by then. *)
Theorem exit_zero_after_fallback_is_500 (b : body) (w : world) (d text : string)
    (outs : list event) (rest : list (proc * event)) :
  validateDomain b = [] -> domain b = VStr d ->
  dir_ready w (normalize __dirname ++ ["results"; d])%list ->
  forallb is_output outs = true ->
  events w = ((Primary, Error "ENOENT" text)
              :: map (pair Fallback) outs ++ (Fallback, Close (Some 0)) :: rest)%list ->
  fst (post_reconnaissance b w)
    = Some (internal_error ("Error executing script: " ++ text)) /\
  status (internal_error ("Error executing script: " ++ text)) = 500%nat.
Proof.
  intros V Hd R _ E.
  assert (R' : dir_ready w (results_root ++ [d])%list)
    by (unfold results_root; now rewrite <- app_assoc).
  rewrite (post_outcome b w d V Hd R'), E, run_enoent. auto.
Qed.

Lemma spawned_python evs :
  In "python"%string (spawned (run evs)) <->
  exists text, In (Primary, Error "ENOENT" text) evs.
Proof.
  unfold run. rewrite run_spawned. simpl. split.
  - intros [H|H]; [discriminate|]. apply in_map_iff in H as (pe & _ & H).
    apply filter_In in H as [Hin He].
    destruct pe as [[|] [| |code text|]]; try discriminate.
    simpl in He. apply String.eqb_eq in He. subst. now exists text.
  - intros (text & H). right. apply in_map_iff.
    exists (Primary, Error "ENOENT" text). split; auto. apply filter_In. now split.
Qed.

(** C5, up to where the code departs from it.  [executeScript] spawns
    python3 first, and python, with the same argument list, if and only if
    python3 emits an ENOENT error; nothing else is spawned.  But after that
    error the promise is rejected whatever the python child does, also when
    it closes with code 0. *)
Theorem fallback_launch (w : world) (d : jsval) (resultsDir : path)
    (t k v j c : jsval) :
  let args := script_args w d resultsDir t k v j c in
  let outcome := fst (executeScript w d resultsDir t k v j c) in
  let fx := snd (executeScript w d resultsDir t k v j c) in
  (exists more, fx = Spawn "python3" args :: more /\
                forall e, In e more -> e = Spawn "python" args) /\
  (In (Spawn "python" args) fx <-> exists text, In (Primary, Error "ENOENT" text) (events w)) /\
  (forall text outs rest,
     forallb is_output outs = true ->
     events w = ((Primary, Error "ENOENT" text)
                 :: map (pair Fallback) outs ++ (Fallback, Close (Some 0)) :: rest)%list ->
     outcome = Some (Rejected ("Error executing script: " ++ text))).
Proof.
  intros args outcome fx. unfold outcome, fx, executeScript. cbn [fst snd]. fold args.
  repeat split.
  - unfold run. rewrite run_spawned. simpl.
    eexists. split; [reflexivity|]. intros e He.
    apply in_map_iff in He as (x & <- & Hx). apply in_map_iff in Hx as (pe & <- & _).
    reflexivity.
  - intros H. apply in_map_iff in H as (x & [= ->] & Hx). now apply spawned_python.
  - intros H. apply in_map_iff. exists "python"%string. split; auto.
    now apply spawned_python.
  - intros text outs rest _ E. rewrite E. apply run_enoent.
Qed.

(** ** The Report of the job layer *)

(** Modelled from the spec: the entries of [active_hosts] are written by the
    reconnaissance core (scripts/main.py, not among the sources); the data
    model gives each ProbeResult a [classification], [active] for the live
    ones. *)
Definition is_active (host : json) : bool :=
  match get "classification" host with
  | Some (JStr s) => (s =? "active")%string
  | _ => false
  end.

(** [total_subdomains] is the number of [subdomains], [active_subdomains]
    the number of active entries of [active_hosts]. *)
Definition counts_agree (report : json) : Prop :=
  exists subs hosts,
    get "subdomains" report = Some (JArr subs) /\
    get "active_hosts" report = Some (JArr hosts) /\
    get "total_subdomains" report = Some (JNum (Z.of_nat (List.length subs))) /\
    get "active_subdomains" report
      = Some (JNum (Z.of_nat (List.length (filter is_active hosts)))).

Lemma empty_report_counts w d fileError :
  counts_agree (empty_report w d fileError) /\
  get "total_subdomains" (empty_report w d fileError) = Some (JNum 0) /\
  get "active_subdomains" (empty_report w d fileError) = Some (JNum 0) /\
  get "subdomains" (empty_report w d fileError) = Some (JArr []) /\
  get "active_hosts" (empty_report w d fileError) = Some (JArr []) /\
  get "errors" (empty_report w d fileError)
    = Some (JArr [JStr ("Failed to create results file: " ++ fileError)]).
Proof.
  repeat split. exists [], []. repeat split.
Qed.

(** Where [results] of a 200 answer comes from. *)
Inductive origin (w : world) (d : string) (r : script_result) (results : json) : Prop :=
| from_file data :
    access w (report_file d) = None ->
    read_file_sync w (report_file d) = Ok data ->
    JSON_parse data = Ok results ->
    origin w d r results
| from_stdout :
    JSON_parse (output r) = Ok results ->
    origin w d r results
| made_up fileError :
    (forall j, JSON_parse (output r) <> Ok j) ->
    results = empty_report w d fileError ->
    origin w d r results.

(** Modelled from the spec: the reconnaissance core (scripts/main.py) is not
    among the sources; section 3 states that both counts agree in every
    Report it emits.  Said here of the two documents the handler can take
    from the core: the report file and the script's output. *)
Definition core_reports_agree (w : world) (d : string) (r : script_result) : Prop :=
  (forall data j, read_file_sync w (report_file d) = Ok data ->
                  JSON_parse data = Ok j -> counts_agree j) /\
  (forall j, JSON_parse (output r) = Ok j -> counts_agree j).

Lemma chosen_origin w d r : origin w d r (chosen_results w d r).
Proof.
  assert (F : forall e, origin w d r (from_output w d r e)).
  { intros e. unfold from_output. destruct (JSON_parse (output r)) as [j|m] eqn:P.
    - now apply from_stdout.
    - apply (made_up _ _ _ _ e); auto. intros j. rewrite P. discriminate. }
  unfold chosen_results.
  destruct (access w (report_file d)) eqn:A; auto.
  destruct (read_file_sync w (report_file d)) as [data|m] eqn:Rd; auto.
  destruct (JSON_parse data) as [j|m] eqn:P; auto.
  now apply (from_file _ _ _ _ data).
Qed.

(** C6.  The results of every 200 answer of the POST handler are the
    document parsed from the report file, or the one parsed from the
    script's output, both passed on as they are, or the Report the handler
    makes up itself.  In that Report [total_subdomains] equals the number of
    [subdomains] and [active_subdomains] the number of active entries of
    [active_hosts]: both counts are 0, both lists are empty, and [errors]
    holds exactly one string.  So the counts agree in every Report the
    handler emits as long as they do in the documents of the core. *)
Theorem emitted_reports (b : body) (w : world) (resp : response) (fx : list effect) :
  post_reconnaissance b w = (Some resp, fx) -> status resp = 200%nat ->
  exists d r results,
    domain b = VStr d /\
    promise (run (events w)) = Some (Resolved r) /\
    sent resp = Json (JObj [("success", JBool true);
                            ("message", JStr "Reconnaissance completed successfully");
                            ("executionTime", JFrac (end_ms w - start_ms w) 1000);
                            ("results", results)]) /\
    ((exists data, read_file_sync w (report_file d) = Ok data /\ JSON_parse data = Ok results) \/
     JSON_parse (output r) = Ok results \/
     (exists fileError,
        results = empty_report w d fileError /\
        counts_agree results /\
        get "total_subdomains" results = Some (JNum 0) /\
        get "active_subdomains" results = Some (JNum 0) /\
        get "subdomains" results = Some (JArr []) /\
        get "active_hosts" results = Some (JArr []) /\
        get "errors" results
          = Some (JArr [JStr ("Failed to create results file: " ++ fileError)]))) /\
    (core_reports_agree w d r -> counts_agree results).
Proof.
  intros P S. destruct (validateDomain b) eqn:V.
  - destruct (validated_domain b w V) as [(d & Hd & Hv)|(items & Hd & PA)];
      [|rewrite PA in P; injection P as <- <-; discriminate].
    rewrite (post_accepted b w d V Hd) in P.
    destruct (ensureDirectoryExists w _) as [[dir|m] fx0].
    + destruct (promise (run (events w))) as [[r|m]|] eqn:Pr.
      * injection P as <- <-. exists d, r, (chosen_results w d r).
        repeat split; auto.
        -- destruct (chosen_origin w d r) as [data _ Rd Pd|Po|e _ ->].
           ++ left. eauto.
           ++ right. now left.
           ++ right. right. exists e. split; auto. apply empty_report_counts.
        -- intros (Cf & Co).
           destruct (chosen_origin w d r) as [data _ Rd Pd|Po|e _ ->].
           ++ now apply (Cf data).
           ++ now apply Co.
           ++ apply empty_report_counts.
      * injection P as <- <-. discriminate.
      * discriminate.
    + injection P as <- <-. discriminate.
  - rewrite post_rejects in P by (rewrite V; discriminate).
    injection P as <- <-. discriminate.
Qed.

(* ================================================================== *)
(** * Further properties of the handlers *)

(** ** What the listeners capture *)

Definition stdout_chunks (es : list event) : list string :=
  flat_map (fun e => match e with Data d => [d] | _ => [] end) es.

Definition stderr_chunks (es : list event) : list string :=
  flat_map (fun e => match e with ErrData d => [d] | _ => [] end) es.

Definition glue (chunks : list string) : string := fold_right append "" chunks.

Lemma feed_chunks es : forall c,
  stdout (feed c es) = stdout c ++ glue (stdout_chunks es) /\
  stderr (feed c es) = stderr c ++ glue (stderr_chunks es).
Proof.
  induction es as [|e es IH]; intros c.
  - simpl. now rewrite !string_app_nil_r.
  - unfold feed in *. cbn [fold_left]. destruct (IH (fst (handlePythonProcess c None e))) as [Ho He].
    rewrite Ho, He. destruct e as [x|x|? ?|[[|?|?]|]]; cbn [handlePythonProcess fst stdout stderr
      stdout_chunks stderr_chunks flat_map app glue fold_right];
      fold (stdout_chunks es); fold (stderr_chunks es); fold (glue (stdout_chunks es));
      fold (glue (stderr_chunks es)); rewrite ?string_app_assoc; auto.
Qed.

(** X2.  The output a successful run resolves with is the chunks python3
    wrote on its stdout, in the order they came and nothing else; what it
    wrote on stderr is kept apart. *)
Theorem resolved_output_is_stdout (evs : list (proc * event)) (outs : list event) :
  exits evs outs (Some 0) ->
  promise (run evs)
    = Some (Resolved {| success := true;
                        message := "Reconnaissance completed successfully";
                        output := glue (stdout_chunks outs) |}) /\
  stderr (captured outs) = glue (stderr_chunks outs).
Proof.
  intros X. rewrite (run_exits _ _ _ X). unfold completed.
  destruct (feed_chunks outs no_output) as [Ho He]. unfold captured.
  fold (feed no_output outs). rewrite Ho, He. auto.
Qed.

(** ** When the promise settles *)


Lemma settle_some p s : settle p s <> None.
Proof. destruct p; discriminate. Qed.






(** ** The python child *)

Definition of_python3 (pe : proc * event) : bool :=
  match pe with (Primary, _) => true | (Fallback, _) => false end.

(** Two runs that agree on what python3 has done so far; a python child, if
    there is one, was spawned by an error that has settled the promise. *)
Definition same_python3 (st st' : launch) : Prop :=
  promise st = promise st' /\ primary st = primary st' /\
  (fallback st <> None -> promise st <> None).

Lemma step_same_python3 st st' e :
  same_python3 st st' -> same_python3 (step st (Primary, e)) (step st' (Primary, e)).
Proof.
  intros (P & C & F). rewrite P in F. unfold same_python3, step.
  destruct e as [x|x|code m|code];
    cbn [on_primary_error handlePythonProcess promise primary fallback].
  - rewrite P, C. auto.
  - rewrite P, C. auto.
  - destruct (code =? "ENOENT")%string; cbn [promise primary fallback]; rewrite P, C;
      repeat split; auto; intros _; apply settle_some.
  - rewrite P, C. destruct code as [[|?|?]|]; cbn [promise primary fallback];
      repeat split; auto; intros _; apply settle_some.
Qed.

Lemma step_python_ignored st st' e :
  same_python3 st st' -> same_python3 (step st (Fallback, e)) st'.
Proof.
  intros (P & C & F). unfold step. destruct (fallback st) as [c0|] eqn:E.
  - assert (S : promise st <> None) by (apply F; discriminate).
    destruct (promise st) as [x|] eqn:Px; [|contradiction].
    pose proof (handle_settled c0 x e) as K.
    destruct (handlePythonProcess c0 (Some x) e) as [c p]. simpl in K. subst p.
    repeat split; simpl; auto.
  - repeat split; auto.
Qed.

Lemma run_same_python3 evs : forall st st',
  same_python3 st st' ->
  promise (fold_left step evs st) = promise (fold_left step (filter of_python3 evs) st').
Proof.
  induction evs as [|[[|] e] evs IH]; intros st st' S; simpl.
  - apply S.
  - apply IH. now apply step_same_python3.
  - apply IH. now apply step_python_ignored.
Qed.

(** X4.  The python child never decides a run: whatever it writes and
    however it ends, [executeScript] settles as it would on the events of
    the python3 child alone. *)
Theorem python_child_never_decides (w w' : world) (d : jsval) (resultsDir : path)
    (t k v j c : jsval) :
  events w' = filter of_python3 (events w) ->
  fst (executeScript w d resultsDir t k v j c)
  = fst (executeScript w' d resultsDir t k v j c).
Proof.
  intros E. unfold executeScript. cbn [fst]. rewrite E. unfold run.
  apply run_same_python3. repeat split; auto.
Qed.

(** ** More of the POST handler *)

(** X1.  When python3 itself runs and closes with code 0, an accepted
    request whose results directory is there is answered 200 with, as
    results: the report file parsed, if it can be accessed, read and parsed;
    else the script's output parsed, if it parses; else a Report of zero
    subdomains whose one error says why the file could not be had (for a
    file that is there but unreadable or not JSON, the message of
    [readResults] inside that of the handler). *)
Theorem python3_success_results (b : body) (w : world) (d : string) (outs : list event) :
  validateDomain b = [] -> domain b = VStr d ->
  dir_ready w (normalize __dirname ++ ["results"; d])%list ->
  exits (events w) outs (Some 0) ->
  let file := (normalize __dirname ++
               ["results"; d; (d ++ "_reconnaissance_report.json")%string])%list in
  let made_up fileError :=
    JObj [("domain", JStr d);
          ("timestamp", JStr (now_iso w));
          ("total_subdomains", JNum 0);
          ("active_subdomains", JNum 0);
          ("subdomains", JArr []);
          ("active_hosts", JArr []);
          ("errors", JArr [JStr ("Failed to create results file: " ++ fileError)])] in
  let from_stdout fileError :=
    match JSON_parse (glue (stdout_chunks outs)) with
    | Ok j => j
    | Throw _ => made_up fileError
    end in
  let results :=
    match access w file with
    | Some m => from_stdout m
    | None =>
        match read_file_sync w file with
        | Throw m => from_stdout ("Failed to read results file: " ++ m)
        | Ok data =>
            match JSON_parse data with
            | Ok j => j
            | Throw m => from_stdout ("Failed to read results file: " ++ m)
            end
        end
    end in
  fst (post_reconnaissance b w)
  = Some {| status := 200; headers := [];
            sent := Json (JObj [("success", JBool true);
                                ("message", JStr "Reconnaissance completed successfully");
                                ("executionTime", JFrac (end_ms w - start_ms w) 1000);
                                ("results", results)]) |}.
Proof.
  intros V Hd R X file made_up from_stdout results.
  assert (R' : dir_ready w (results_root ++ [d])%list)
    by (unfold results_root; now rewrite <- app_assoc).
  rewrite (post_exit_zero b w d outs V Hd R' X). unfold recon_completed.
  assert (F : report_file d = file).
  { unfold report_file, file, results_root, report_name. now rewrite <- app_assoc. }
  assert (O : output (completed (captured outs)) = glue (stdout_chunks outs)).
  { destruct (feed_chunks outs no_output) as [Ho _]. unfold completed, captured.
    cbn [output]. fold (feed no_output outs). now rewrite Ho. }
  do 4 f_equal. unfold chosen_results, from_output, results, from_stdout, made_up, empty_report.
  rewrite F, O. reflexivity.
Qed.

(** X6.  When the results directory of an accepted request is missing and
    cannot be created, the handler answers 500 with the message of that
    error after those two steps and nothing more: no child is spawned, no
    file is looked for.  When the directory is there, none is created. *)
Theorem directory_failure_is_500 (b : body) (w : world) (d : string) :
  validateDomain b = [] -> domain b = VStr d ->
  let dir := (normalize __dirname ++ ["results"; d])%list in
  (forall m, exists_sync w dir = false -> mkdir_sync w dir = Some m ->
     post_reconnaissance b w = (Some (internal_error m), [FsExists dir; FsMkdir dir]) /\
     status (internal_error m) = 500%nat) /\
  (exists_sync w dir = true ->
     forall p, ~ In (FsMkdir p) (snd (post_reconnaissance b w))).
Proof.
  intros V Hd dir.
  assert (D : dir = (results_root ++ [d])%list)
    by (unfold dir, results_root; now rewrite <- app_assoc).
  split.
  - intros m E M. rewrite (post_accepted b w d V Hd), <- D.
    rewrite (ensure_fails w dir m E M). unfold dir_effects. rewrite E. auto.
  - intros E p Hin. apply (post_effects b w d V Hd) in Hin.
    apply in_app_or in Hin as [Hin|Hin]; [|apply in_app_or in Hin as [Hin|Hin]].
    + unfold dir_effects in Hin. rewrite <- D, E in Hin.
      destruct Hin as [H|[]]. discriminate.
    + unfold spawns in Hin. apply in_map_iff in Hin as (c & H & _). discriminate.
    + unfold results_effects in Hin. destruct (access w _); simpl in Hin;
        decompose [or] Hin; try discriminate; contradiction.
Qed.

(** X7.  Whatever the request, the POST handler touches two places of the
    file system at most: the results directory of the request's domain and
    the JSON report in it, both strictly below the results directory. *)
Theorem post_paths_confined (b : body) (w : world) (e : effect) (p : path) :
  In e (snd (post_reconnaissance b w)) -> effect_path e = Some p ->
  exists d, domain b = VStr d /\
    (p = (normalize __dirname ++ ["results"; d])%list \/
     p = (normalize __dirname ++
          ["results"; d; (d ++ "_reconnaissance_report.json")%string])%list) /\
    inside (normalize __dirname ++ ["results"])%list p.
Proof.
  intros Hin Hp. destruct (validateDomain b) eqn:V.
  - destruct (validated_domain b w V) as [(d & Hd & Hv)|(items & Hd & PA)];
      [|rewrite PA in Hin; contradiction].
    exists d. split; [assumption|].
    apply (post_effects b w d V Hd) in Hin.
    assert (A : p = (results_root ++ [d])%list \/ p = report_file d).
    { apply in_app_or in Hin as [Hin|Hin]; [|apply in_app_or in Hin as [Hin|Hin]].
      - left. unfold dir_effects in Hin. destruct (exists_sync w _); simpl in Hin;
          decompose [or] Hin; subst; simpl in Hp; try congruence; contradiction.
      - unfold spawns in Hin. apply in_map_iff in Hin as (c & <- & _). discriminate.
      - right. unfold results_effects in Hin. destruct (access w _); simpl in Hin;
          decompose [or] Hin; subst; simpl in Hp; try congruence; contradiction. }
    fold results_root. destruct A as [->| ->].
    + split.
      * left. unfold results_root. now rewrite <- app_assoc.
      * exists [d]. repeat split; try discriminate.
        apply Forall_cons; [now apply valid_plain|constructor].
    + split.
      * right. unfold report_file, results_root, report_name. now rewrite <- app_assoc.
      * apply (results_file_inside d (VStr "json") Hv).
  - rewrite post_rejects in Hin by (rewrite V; discriminate). contradiction.
Qed.

(** X8.  Every answer of the POST handler is JSON with status 200, 400 or
    500 and no header of its own, and its [success] member is true exactly
    when the status is 200. *)
Theorem post_status_and_success (b : body) (w : world) (resp : response) :
  fst (post_reconnaissance b w) = Some resp ->
  (status resp = 200%nat \/ status resp = 400%nat \/ status resp = 500%nat) /\
  headers resp = [] /\
  exists j, sent resp = Json j /\
            get "success" j = Some (JBool (status resp =? 200)%nat).
Proof.
  unfold post_reconnaissance. intros H.
  assert (E : resp = validation_failed (validateDomain b) \/
              (exists m, resp = internal_error m) \/
              (exists r, resp = recon_completed w r)).
  { destruct (validateDomain b); [|injection H as <-; now left].
    destruct (domain b); try (injection H as <-; right; left; eauto).
    destruct (ensureDirectoryExists w _) as [[dir|m] fx];
      [|injection H as <-; right; left; eauto].
    destruct (executeScript _ _ _ _ _ _ _ _) as [[[r|m]|] fx2].
    - destruct (collect_results _ _ _ _) as [j fx3]. injection H as <-. right. right. eauto.
    - injection H as <-. right. left. eauto.
    - discriminate. }
  destruct E as [->|[(m & ->)|(r & ->)]]; simpl; repeat split; eauto.
Qed.

(** X17.  The POST handler looks for the report only after a run that
    succeeded: if it checks or reads a file, the promise of [executeScript]
    has resolved.  After a failed run no report is read, not even one left
    by an earlier run. *)
Theorem report_read_only_after_success (b : body) (w : world) (e : effect) (p : path) :
  In e (snd (post_reconnaissance b w)) -> e = FsAccess p \/ e = FsRead p ->
  exists r, promise (run (events w)) = Some (Resolved r) /\
            exists results, fst (post_reconnaissance b w) = Some (recon_completed w results).
Proof.
  intros Hin He. destruct (validateDomain b) eqn:V.
  - destruct (validated_domain b w V) as [(d & Hd & Hv)|(items & Hd & PA)];
      [|rewrite PA in Hin; contradiction].
    rewrite (post_accepted b w d V Hd) in *.
    pose proof (ensure_effects w (results_root ++ [d])%list) as E.
    assert (D : ~ In e (dir_effects w (results_root ++ [d])%list)).
    { unfold dir_effects. destruct (exists_sync w _); simpl; intros K;
        decompose [or] K; subst; try contradiction; destruct He; discriminate. }
    assert (S : ~ In e (spawns w b d)).
    { unfold spawns. intros K. apply in_map_iff in K as (c & <- & _).
      destruct He; discriminate. }
    destruct (ensureDirectoryExists w (results_root ++ [d])%list) as [[dir|m] fx];
      simpl in E; subst fx.
    + destruct (promise (run (events w))) as [[r|m]|]; simpl in Hin.
      * exists r. split; [reflexivity|]. simpl. eauto.
      * apply in_app_or in Hin as [Hin|Hin]; contradiction.
      * apply in_app_or in Hin as [Hin|Hin]; contradiction.
    + simpl in Hin. contradiction.
  - rewrite post_rejects in Hin by (rewrite V; discriminate). contradiction.
Qed.

(** ** More of the GET handlers *)

(** X9.  GET /api/results/:domain never answers 500: its status is 200,
    400 or 404, every JSON answer of it has a [success] member that is true
    exactly when the status is 200, and a CSV body has status 200.  The
    download handler answers 200 only by sending the file; its JSON answers
    have [success] false and status 400 or 404; Express's error page, 404 or
    500, is answered only when the file could be accessed and
    [res.download] failed afterwards. *)
Theorem get_status_and_success (d : string) (f : jsval) (w : world) :
  (let resp := fst (get_results d f w) in
   (status resp = 200%nat \/ status resp = 400%nat \/ status resp = 404%nat) /\
   match sent resp with
   | Json j => get "success" j = Some (JBool (status resp =? 200)%nat)
   | _ => status resp = 200%nat
   end) /\
  (let resp := fst (get_download d f w) in
   match sent resp with
   | File _ _ => status resp = 200%nat
   | Json j =>
       get "success" j = Some (JBool false) /\
       (status resp = 400%nat \/ status resp = 404%nat)
   | ErrorPage =>
       (status resp = 404%nat \/ status resp = 500%nat) /\
       exists p failure, access w p = None /\ send_file w p = Some failure
   | Text _ => False
   end).
Proof.
  split; cbv zeta; destruct (valid_domain d) eqn:V.
  - rewrite get_results_valid by assumption. cbv zeta.
    destruct (read_file_sync w _); [destruct (is_json _); [destruct (JSON_parse _)|]|];
      simpl; auto.
  - rewrite get_results_invalid by assumption. simpl. auto.
  - rewrite get_download_valid by assumption. cbv zeta.
    destruct (access w _) eqn:A; [simpl; auto|].
    destruct (send_file w _) as [[| |]|] eqn:S; simpl; eauto 8.
  - rewrite get_download_invalid by assumption. simpl. auto.
Qed.

(** X10.  For a domain the pattern accepts, the download handler checks
    that the results file of the format can be accessed: if not, it answers
    404 [File not found] naming the domain and goes no further.  If so, it
    sets [Content-Type], [application/json] for the format ['json'] and
    [text/csv] for any other, and an attachment [Content-Disposition] with
    the file's own name, and calls [res.download]: the file is sent with
    status 200, or, when that fails, Express answers in the handler's place,
    with the catch-all's 404 for a directory and with its error page
    otherwise, 404 for a file that is gone and 500 for any other failure;
    the page keeps the handler's [Content-Disposition] and has its own
    [Content-Type]. *)
Theorem download_outcome (d : string) (f : jsval) (w : world) :
  valid_domain d = true ->
  let format := default_format f in
  let name := if is_json format
              then d ++ "_reconnaissance_report.json" else d ++ "_subdomains.csv" in
  let file := (normalize __dirname ++ ["results"; d; name])%list in
  let disposition :=
    ("Content-Disposition", "attachment; filename=" ++ quote ++ name ++ quote) in
  let set := [("Content-Type", if is_json format then "application/json" else "text/csv");
              disposition] in
  get_download d f w =
    match access w file with
    | Some _ =>
        ({| status := 404; headers := [];
            sent := Json (JObj [("success", JBool false);
                                ("error", JStr "File not found");
                                ("message",
                                 JStr ("Results file for domain " ++ d ++ " not found"))]) |},
         [FsAccess file])
    | None =>
        (match send_file w file with
         | None => {| status := 200; headers := set; sent := File file name |}
         | Some Gone => {| status := 404; headers := [disposition]; sent := ErrorPage |}
         | Some Unreadable => {| status := 500; headers := [disposition]; sent := ErrorPage |}
         | Some IsDirectory =>
             {| status := 404; headers := set;
                sent := Json (JObj [("success", JBool false);
                                    ("error", JStr "Not found");
                                    ("message",
                                     JStr "The requested resource was not found")]) |}
         end,
         [FsAccess file; FsSend file])
    end.
Proof.
  intros V format name file disposition set.
  rewrite get_download_valid by assumption. cbv zeta.
  assert (N : results_filename d (default_format f) = name) by reflexivity.
  assert (F : (results_root ++ [d; results_filename d (default_format f)])%list = file).
  { unfold file, results_root. rewrite N. now rewrite <- app_assoc. }
  rewrite F, N. destruct (access w file); [reflexivity|].
  destruct (send_file w file) as [[| |]|]; reflexivity.
Qed.

(** X5.  The GET handlers only look: they read, check or send a file, and
    never create a directory or spawn a process. *)
Theorem get_handlers_only_read (d : string) (f : jsval) (w : world) (e : effect) :
  In e (snd (get_results d f w) ++ snd (get_download d f w))%list ->
  exists p, e = FsRead p \/ e = FsAccess p \/ e = FsSend p.
Proof.
  intros Hin. destruct (valid_domain d) eqn:V.
  - rewrite get_results_valid, get_download_valid in Hin by assumption. cbv zeta in Hin.
    apply in_app_or in Hin as [Hin|Hin].
    + destruct (read_file_sync w _); [destruct (is_json _); [destruct (JSON_parse _)|]|];
        simpl in Hin; destruct Hin as [<-|[]]; eauto.
    + destruct (access w _); simpl in Hin; decompose [or] Hin; subst; eauto; contradiction.
  - rewrite get_results_invalid, get_download_invalid in Hin by assumption. contradiction.
Qed.

(** X11.  The three handlers agree on what a domain is: a domain string
    passes the domain validators of the POST request exactly when the GET
    handlers do not answer 400 for it. *)
Theorem handlers_agree_on_domains (b : body) (s : string) (f : jsval) (w : world) :
  domain b = VStr s ->
  (validate_domain_field b = [] <-> status (fst (get_results s f w)) <> 400%nat) /\
  (validate_domain_field b = [] <-> status (fst (get_download s f w)) <> 400%nat).
Proof.
  intros Hd.
  pose proof (validate_domain_string b s Hd) as E.
  rewrite E.
  destruct (valid_domain s) eqn:V.
  - split; (split; [intros _|reflexivity]).
    + rewrite get_results_valid by assumption. cbv zeta.
      destruct (read_file_sync w _); [destruct (is_json _); [destruct (JSON_parse _)|]|];
        simpl; discriminate.
    + rewrite get_download_valid by assumption. cbv zeta.
      destruct (access w _); [simpl; discriminate|].
      destruct (send_file w _) as [[| |]|]; simpl; discriminate.
  - rewrite get_results_invalid, get_download_invalid by assumption. simpl.
    split; (split; [discriminate|intros H; now contradiction H]).
Qed.

(** X12.  What a run leaves behind is what the results route serves: when
    python3 closes with code 0 and the JSON report of the domain is there
    and parses, the POST handler answers with that document as [results] and
    GET /api/results/:domain, asked for JSON or for no format, answers 200
    with the same document as [data]. *)
Theorem posted_report_is_served (b : body) (w : world) (d : string) (outs : list event)
    (data : string) (j : json) :
  validateDomain b = [] -> domain b = VStr d ->
  dir_ready w (normalize __dirname ++ ["results"; d])%list ->
  exits (events w) outs (Some 0) ->
  let file := (normalize __dirname ++
               ["results"; d; (d ++ "_reconnaissance_report.json")%string])%list in
  access w file = None -> read_file_sync w file = Ok data -> JSON_parse data = Ok j ->
  fst (post_reconnaissance b w) = Some (recon_completed w j) /\
  forall f, f = VUndefined \/ f = VStr "json" ->
    fst (get_results d f w)
    = {| status := 200; headers := [];
         sent := Json (JObj [("success", JBool true);
                             ("data", j);
                             ("metadata", JObj [("domain", JStr d);
                                                ("format", JStr "json");
                                                ("timestamp", JStr (now_iso w))])]) |}.
Proof.
  intros V Hd R X file A Rd P.
  destruct (validated b d V Hd) as (Hv & _).
  assert (R' : dir_ready w (results_root ++ [d])%list)
    by (unfold results_root; now rewrite <- app_assoc).
  assert (F : report_file d = file).
  { unfold report_file, file, results_root, report_name. now rewrite <- app_assoc. }
  split.
  - rewrite (post_exit_zero b w d outs V Hd R' X). unfold chosen_results.
    now rewrite F, A, Rd, P.
  - intros f Hf. apply json_format in Hf. rewrite get_results_valid by assumption.
    cbv zeta. unfold results_filename. rewrite Hf. fold (report_file d).
    now rewrite F, Rd, P.
Qed.

Lemma string_app_inv_head (a x y : string) : a ++ x = a ++ y -> x = y.
Proof. induction a; simpl; intros H; [assumption|]. injection H as H. auto. Qed.

Lemma results_file_inj d d' f f' :
  results_file d f = results_file d' f' ->
  d = d' /\ is_json (default_format f) = is_json (default_format f').
Proof.
  unfold results_file. intros H. apply app_inv_head in H. injection H as <- N.
  split; [reflexivity|]. unfold results_filename, report_name, csv_name in N.
  destruct (is_json (default_format f)), (is_json (default_format f')); auto;
    apply string_app_inv_head in N; discriminate.
Qed.

Definition get_effects (d : string) (f : jsval) (w : world) : list effect :=
  (snd (get_results d f w) ++ snd (get_download d f w))%list.

Lemma get_effects_touch d f w e p :
  In e (get_effects d f w) -> effect_path e = Some p -> p = results_file d f.
Proof.
  intros Hin Hp. apply in_app_or in Hin as [Hin|Hin].
  - now apply (get_results_touches d f w e).
  - now apply (get_download_touches d f w e).
Qed.

Lemma post_touches b w e p :
  In e (snd (post_reconnaissance b w)) -> effect_path e = Some p ->
  exists d, domain b = VStr d /\
    (p = (results_root ++ [d])%list \/ p = results_file d (VStr "json")).
Proof.
  intros Hin Hp. destruct (validateDomain b) eqn:V.
  - destruct (validated_domain b w V) as [(d & Hd & Hv)|(items & Hd & PA)];
      [|rewrite PA in Hin; contradiction].
    exists d. split; [assumption|].
    apply (post_effects b w d V Hd) in Hin.
    apply in_app_or in Hin as [Hin|Hin]; [|apply in_app_or in Hin as [Hin|Hin]].
    + left. unfold dir_effects in Hin. destruct (exists_sync w _); simpl in Hin;
        decompose [or] Hin; subst; simpl in Hp; try congruence; contradiction.
    + unfold spawns in Hin. apply in_map_iff in Hin as (c & <- & _). discriminate.
    + right. unfold results_effects in Hin. destruct (access w _); simpl in Hin;
        decompose [or] Hin; subst; simpl in Hp;
        try (injection Hp as <-; reflexivity); contradiction.
  - rewrite post_rejects in Hin by (rewrite V; discriminate). contradiction.
Qed.

(** X13.  Requests never meet on a file by accident.  Two GET requests, for
    results or for a download, that touch the same file are for the same
    domain and both for JSON or both not; a POST request and a GET request
    that touch the same file are for the same domain, and the GET request is
    for JSON. *)
Theorem result_files_do_not_collide :
  (forall d d' f f' w w' e e' p,
     In e (get_effects d f w) -> In e' (get_effects d' f' w') ->
     effect_path e = Some p -> effect_path e' = Some p ->
     d = d' /\ is_json (default_format f) = is_json (default_format f')) /\
  (forall b d' f' w w' e e' p,
     In e (snd (post_reconnaissance b w)) -> In e' (get_effects d' f' w') ->
     effect_path e = Some p -> effect_path e' = Some p ->
     domain b = VStr d' /\ is_json (default_format f') = true).
Proof.
  split.
  - intros d d' f f' w w' e e' p He He' Hp Hp'.
    apply (get_effects_touch d f w e p He) in Hp.
    apply (get_effects_touch d' f' w' e' p He') in Hp'.
    apply results_file_inj. congruence.
  - intros b d' f' w w' e e' p He He' Hp Hp'.
    apply (get_effects_touch d' f' w' e' p He') in Hp'.
    destruct (post_touches b w e p He Hp) as (d & Hd & [E|E]).
    + exfalso. rewrite E in Hp'. unfold results_file in Hp'.
      apply app_inv_head in Hp'. discriminate.
    + rewrite E in Hp'. apply results_file_inj in Hp' as [<- K].
      split; [assumption|]. now rewrite <- K.
Qed.

(** ** More of the argument list *)

Lemma hyphen_first a r : a <> "-"%char -> String.prefix "-" (String a r) = false.
Proof.
  intros N. cbn [String.prefix]. destruct (ascii_dec "-" a) as [E|]; [|reflexivity].
  now contradiction N.
Qed.

Lemma valid_not_option d : valid_domain d = true -> String.prefix "-" d = false.
Proof.
  intros V. apply valid_domain_shape in V as (c & mid & opt & tld & E & Hc & _).
  destruct d as [|a d]; [reflexivity|]. simpl in E. injection E as <- _.
  apply hyphen_first. intros ->. discriminate.
Qed.

Lemma positive_numeral_not_option n : 0 < n -> String.prefix "-" (numeral n) = false.
Proof.
  intros H. destruct n as [|p|p]; try lia. unfold numeral. cbn [Z.to_int NilZero.string_of_int].
  destruct (Pos.to_uint p); reflexivity.
Qed.

Lemma of_uint_nonneg d : 0 <= Z.of_uint d.
Proof. unfold Z.of_uint. apply N2Z.is_nonneg. Qed.

Lemma positive_string_not_option s n :
  parse_int s = Some n -> 0 < n -> String.prefix "-" s = false.
Proof.
  intros P H. destruct s as [|a r]; [reflexivity|].
  destruct (ascii_dec a "-") as [->|N]; [|now apply hyphen_first].
  unfold parse_int in P. cbn [Ascii.eqb Bool.eqb] in P.
  destruct (NilZero.uint_of_string r) as [u|]; [|discriminate].
  injection P as <-. pose proof (of_uint_nonneg u). lia.
Qed.

Lemma numeral_not_empty n : numeral n <> ""%string.
Proof. intros E. pose proof (parse_numeral n) as P. rewrite E in P. discriminate. Qed.

Lemma integer_not_option lo hi x :
  0 < lo -> integer_within lo hi x ->
  String.prefix "-" (toString x) = false /\ toString x <> ""%string.
Proof.
  intros Hlo (n & Hn & Hr). destruct x as [| |?|m|s|?]; try discriminate; simpl in Hn.
  - injection Hn as ->. split; [|apply numeral_not_empty].
    apply positive_numeral_not_option. lia.
  - split; [apply (positive_string_not_option s n Hn); lia|].
    simpl. intros ->. discriminate.
Qed.

Lemma not_option_app s t :
  s <> ""%string -> String.prefix "-" s = false -> String.prefix "-" (s ++ t) = false.
Proof.
  intros N H. destruct s as [|c r]; [contradiction|].
  cbn [append String.prefix] in *. destruct (ascii_dec "-" c); [destruct r; discriminate|reflexivity].
Qed.

Lemma atom_string_of a : atom_string a = toString (of_atom a).
Proof. destruct a as [|[|]| |]; reflexivity. Qed.

Lemma within_not_option lo hi v dflt :
  0 < lo -> accepted_field lo hi v -> String.prefix "-" (toString dflt) = false ->
  String.prefix "-" (toString (or_default v dflt)) = false.
Proof.
  intros Hlo [->|H] Hd; [assumption|].
  destruct v as [| |?|m|s|items]; try assumption;
    simpl in H; try (inversion H as [|? ? I _]; subst;
                     now apply (integer_not_option lo hi _ Hlo I)).
  cbn [or_default toString]. destruct items as [|a items]; [reflexivity|].
  simpl in H. inversion H as [|? ? I _]; subst.
  destruct (integer_not_option lo hi _ Hlo I) as [P N].
  rewrite <- atom_string_of in P, N. cbn [map String.concat].
  destruct (map atom_string items); [assumption|]. now apply not_option_app.
Qed.

Lemma render_not_option p : String.prefix "-" (render p) = false.
Proof. destruct p as [|a [|b p]]; reflexivity. Qed.

Definition option_names : list jsval :=
  [VStr "--output-dir"; VStr "--timeout"; VStr "--workers";
   VStr "--verbose"; VStr "--json-only"; VStr "--csv-only"].

(** X14.  Nothing a request supplies reaches a child as an option: in the
    argument list of every child spawned for a request, an argument that
    begins with a hyphen is one of the handler's own six option names, or
    the script path when the environment sets it so. *)
Theorem request_arguments_are_not_options (b : body) (w : world)
    (command : string) (args : list jsval) (v : jsval) :
  In (Spawn command args) (snd (post_reconnaissance b w)) -> In v args ->
  String.prefix "-" (toString v) = true ->
  In v option_names \/ v = PYTHON_PATH w.
Proof.
  intros Hs Hv Hp. destruct (validateDomain b) eqn:V.
  - destruct (validated_domain b w V) as [(d & Hd & Hok)|(items & Hd & PA)];
      [|rewrite PA in Hs; contradiction].
    destruct (validated b d V Hd) as (_ & Ht & Hw).
    rewrite (spawn_in_post b w d command args V Hd Hs) in Hv.
    rewrite (script_args_of w b d Hok Ht Hw) in Hv.
    pose proof (within_not_option 30 300 (timeout b) (VNum 300)) as T.
    pose proof (within_not_option 1 30 (workers b) (VNum 20)) as W.
    unfold option_names.
    cbn [app In] in Hv.
    destruct Hv as [<-|[<-|[<-|[<-|[<-|[<-|[<-|[<-|Hv]]]]]]]].
    + unfold js_or in *. destruct (truthy (PYTHON_PATH w)); [now right|].
      cbn [toString] in Hp. now rewrite render_not_option in Hp.
    + cbn [toString] in Hp. now rewrite (valid_not_option d Hok) in Hp.
    + left. simpl. tauto.
    + cbn [toString] in Hp. now rewrite render_not_option in Hp.
    + left. simpl. tauto.
    + rewrite T in Hp; [discriminate|lia|assumption|reflexivity].
    + left. simpl. tauto.
    + rewrite W in Hp; [discriminate|lia|assumption|reflexivity].
    + left. unfold flag in Hv.
      destruct (truthy (verbose b)), (truthy (jsonOnly b)), (truthy (csvOnly b));
        simpl in Hv; decompose [or] Hv; subst; simpl; tauto.
  - rewrite post_rejects in Hs by (rewrite V; discriminate). contradiction.
Qed.

(** ** More of the validation *)

Definition required_error : verror := {| field := "domain"; msg := "Domain is required" |}.
Definition format_error : verror := {| field := "domain"; msg := "Invalid domain format" |}.

(** A string without a character that [isLength] counts fails the
    pattern. *)
Lemma uncounted_invalid s : counted_length s = O -> regex_test domain_regex s = false.
Proof.
  intros H. fold (valid_domain s). destruct (valid_domain s) eqn:V; auto.
  apply valid_isLength in V. unfold isLength in V. now rewrite H in V.
Qed.

(** X15.  [Domain is required] is reported exactly when the domain field,
    or an item of it when it is an array, has no character that [isLength]
    counts; so it is for a domain that is missing, null or the empty string.
    It is then reported together with [Invalid domain format], and the
    request is answered 400 with both in the body and nothing is done for
    it. *)
Theorem domain_required (b : body) (w : world) :
  (In required_error (validateDomain b) <->
   exists x, In x (elements (domain b)) /\ counted_length (toString x) = O) /\
  (domain b = VUndefined \/ domain b = VNull \/ domain b = VStr "" ->
   In required_error (validateDomain b)) /\
  (In required_error (validateDomain b) ->
   exists errs,
     post_reconnaissance b w
     = (Some {| status := 400; headers := [];
                sent := Json (JObj [("success", JBool false); ("errors", JArr errs)]) |},
        []) /\
     lists_error errs "domain" "Domain is required" /\
     lists_error errs "domain" "Invalid domain format").
Proof.
  assert (E : In required_error (validateDomain b) <->
              exists x, In x (elements (domain b)) /\ counted_length (toString x) = O).
  { unfold validateDomain, validate_domain_field, validate_timeout_field,
      validate_workers_field. split.
    - intros Hin. apply in_app_or in Hin as [Hin|Hin].
      + apply in_app_or in Hin as [Hin|Hin].
        * unfold validator in Hin. apply in_flat_map in Hin as (x & Hx & Hin).
          exists x. split; [assumption|]. unfold check, isLength in Hin.
          destruct (counted_length (toString x)); [reflexivity|]. simpl in Hin. contradiction.
        * apply validator_errors in Hin. discriminate.
      + apply in_app_or in Hin as [Hin|Hin]; unfold optional in Hin;
          [destruct (timeout b)|destruct (workers b)]; try contradiction;
          apply validator_errors in Hin; discriminate.
    - intros (x & Hx & Hc). apply in_or_app. left. apply in_or_app. left.
      unfold validator. apply in_flat_map. exists x. split; [assumption|].
      unfold check, isLength. rewrite Hc. now left. }
  split; [exact E|]. split.
  - intros H. apply E. exists (domain b).
    destruct H as [H|[H|H]]; rewrite H; simpl; auto.
  - intros Hin.
    assert (F : In format_error (validateDomain b)).
    { apply E in Hin as (x & Hx & Hc). unfold validateDomain, validate_domain_field.
      apply in_or_app. left. apply in_or_app. right.
      unfold validator. apply in_flat_map. exists x. split; [assumption|].
      unfold check. rewrite (uncounted_invalid _ Hc). now left. }
    assert (N : validateDomain b <> []) by (intros K; rewrite K in Hin; contradiction).
    rewrite (post_rejects b w N).
    exists (map json_of_verror (validateDomain b)). split; [reflexivity|]. split.
    + exact (lists_reported _ required_error Hin).
    + exact (lists_reported _ format_error F).
Qed.

(** ** The CORS configuration *)

(** The [origin] of [corsOptions]: the environment's [ALLOWED_ORIGINS] cut
    at its commas, or the wildcard when it is unset or empty. *)
Definition allowed_origins (ALLOWED_ORIGINS : option string) : list string :=
  match ALLOWED_ORIGINS with
  | Some s => if truthy (VStr s) then split "," s else ["*"%string]
  | None => ["*"%string]
  end.

Lemma split_not_nil c s : split c s <> [].
Proof.
  destruct s as [|a s]; simpl; [discriminate|].
  destruct (Ascii.eqb a c); [discriminate|]. destruct (split c s); discriminate.
Qed.

Lemma concat_split c s : String.concat (String c "") (split c s) = s.
Proof.
  induction s as [|a s IH]; [reflexivity|]. simpl.
  destruct (Ascii.eqb_spec a c) as [->|N].
  - pose proof (split_not_nil c s) as K.
    destruct (split c s) as [|x xs] eqn:E; [contradiction|].
    simpl in *. now rewrite IH.
  - pose proof (split_not_nil c s) as K.
    destruct (split c s) as [|x xs]; [contradiction|].
    destruct xs as [|y ys]; simpl in *; now rewrite <- IH.
Qed.

Lemma split_no_separator c s x : In x (split c s) -> ~ In c (chars x).
Proof.
  revert x. induction s as [|a s IH]; simpl; intros x Hin.
  - destruct Hin as [<-|[]]. auto.
  - destruct (Ascii.eqb_spec a c) as [->|N].
    + destruct Hin as [<-|Hin]; auto.
    + pose proof (split_not_nil c s) as K.
      destruct (split c s) as [|y ys]; [contradiction|].
      destruct Hin as [<-|Hin].
      * simpl. intros [H|H]; [now apply N|]. apply (IH y); simpl; auto.
      * apply IH. now right.
Qed.

(** X16.  The allowed origins are never none: the wildcard alone when
    [ALLOWED_ORIGINS] is unset or empty, else the pieces of its value
    between the commas, taken as they are: none holds a comma, and joined
    with commas they give the value back. *)
Theorem allowed_origins_split (ALLOWED_ORIGINS : option string) :
  allowed_origins ALLOWED_ORIGINS <> [] /\
  (ALLOWED_ORIGINS = None \/ ALLOWED_ORIGINS = Some ""%string ->
   allowed_origins ALLOWED_ORIGINS = ["*"%string]) /\
  (forall s, ALLOWED_ORIGINS = Some s -> s <> ""%string ->
     String.concat "," (allowed_origins ALLOWED_ORIGINS) = s /\
     forall o, In o (allowed_origins ALLOWED_ORIGINS) -> ~ In ","%char (chars o)).
Proof.
  split; [|split].
  - destruct ALLOWED_ORIGINS as [s|]; simpl; [|discriminate].
    destruct (negb (s =? "")%string); [apply split_not_nil|discriminate].
  - intros [->| ->]; reflexivity.
  - intros s -> N. apply String.eqb_neq in N. simpl. rewrite N. simpl. split.
    + apply concat_split.
    + intros o Hin. now apply split_no_separator in Hin.
Qed.

End Server.

(* ================================================================== *)
(** * Concrete runs *)

(** The Domain of the data model as its description reads: labels of 1 to
    63 letters, digits and hyphens, none starting or ending with a hyphen,
    separated by dots, the last one two or more letters. *)
Definition dns_label (l : string) : bool :=
  (1 <=? String.length l)%nat && (String.length l <=? 63)%nat &&
  forallb alnum_dash (chars l) &&
  match chars l with
  | [] => false
  | c :: rest => alnum c && alnum (last rest c)
  end.

Definition public_suffix_like (l : string) : bool :=
  (2 <=? String.length l)%nat && forallb alpha (chars l).

Definition dns_name (s : string) : bool :=
  let labels := split "." s in
  (2 <=? List.length labels)%nat && forallb dns_label labels &&
  public_suffix_like (last labels "").

Definition server_dir : path := ["srv"; "recon"; "server"].

(** A stand-in for [JSON.parse] that knows one document. *)
Definition parse_braces (s : string) : result json :=
  if (s =? "{}")%string then Ok (JObj []) else Throw "Unexpected token in JSON".

(** A machine with an empty results directory and the given children. *)
Definition machine (evs : list (proc * event)) : world :=
  {| PYTHON_PATH := VUndefined;
     exists_sync := fun _ => true;
     mkdir_sync := fun _ => None;
     access := fun _ => Some "ENOENT: no such file or directory";
     read_file_sync := fun _ => Throw "ENOENT: no such file or directory";
     send_file := fun _ => Some Gone;
     start_ms := 1000;
     end_ms := 3500;
     now_iso := "2024-01-15T10:30:00.000Z";
     events := evs |}.

(** A machine that holds a CSV for every domain. *)
Definition archive : world :=
  {| PYTHON_PATH := VUndefined;
     exists_sync := fun _ => true;
     mkdir_sync := fun _ => None;
     access := fun _ => None;
     read_file_sync := fun _ => Ok "hostname,classification";
     send_file := fun _ => None;
     start_ms := 0;
     end_ms := 0;
     now_iso := "2024-01-15T10:30:00.000Z";
     events := [] |}.

Definition request (d : string) (t k : jsval) : body :=
  {| domain := VStr d; timeout := t; workers := k;
     verbose := VBool true; jsonOnly := VUndefined; csvOnly := VBool false |}.

(** python3 is missing; python runs, prints and closes with code 0. *)
Definition python_only : list (proc * event) :=
  [ (Primary, Error "ENOENT" "spawn python3 ENOENT");
    (Fallback, Data "{}");
    (Fallback, Close (Some 0)) ].



(** python3 runs, prints a progress line and closes with code 0. *)
Definition python3_succeeds : list (proc * event) :=
  [ (Primary, Data "[*] done"); (Primary, Close (Some 0)) ].

Example valid_example_com : valid_domain "example.com" = true.
Proof. reflexivity. Qed.

Example valid_trailing_hyphen : valid_domain "a-.io" = true.
Proof. reflexivity. Qed.

Example invalid_traversal : valid_domain "../../etc/passwd" = false.
Proof. reflexivity. Qed.

Example invalid_short_suffix : valid_domain "example.c" = false.
Proof. reflexivity. Qed.

Example join_climbs :
  path_join server_dir ["../scripts/main.py"] = ["srv"; "recon"; "scripts"; "main.py"].
Proof. reflexivity. Qed.

Example numeric_string_timeout :
  validateDomain (request "example.com" (VStr "045") (VNum 30)) = [].
Proof. reflexivity. Qed.

Example null_timeout_is_present :
  validateDomain (request "example.com" VNull VUndefined) = [timeout_error].
Proof. reflexivity. Qed.

Example python3_run_answers_200 :
  fst (post_reconnaissance server_dir parse_braces
         (request "example.com" VUndefined VUndefined) (machine python3_succeeds))
  = Some (recon_completed (machine python3_succeeds)
            (empty_report (machine python3_succeeds) "example.com"
               "ENOENT: no such file or directory")).
Proof. reflexivity. Qed.

(** C4, as the claim words it, fails: a name of three labels is a DNS-label
    sequence ending in a public-suffix-like label and is answered 400, while
    a label ending with a hyphen is none and passes. *)
Lemma three_labels_rejected :
  dns_name "www.example.com" = true /\
  post_reconnaissance server_dir parse_braces
    (request "www.example.com" VUndefined VUndefined) (machine python3_succeeds)
  = (Some (validation_failed [{| field := "domain"; msg := "Invalid domain format" |}]), []) /\
  dns_name "a-.io" = false /\
  validateDomain (request "a-.io" VUndefined VUndefined) = [].
Proof. repeat split. Qed.



(** ** The theorems at work *)


Lemma domain_validation_witness :
  domain (request "example.com" VUndefined VUndefined) = VStr "example.com" /\
  label_dot_letters strict_label "example.com" /\
  validate_domain_field (request "example.com" VUndefined VUndefined) = [].
Proof.
  assert (L : label_dot_letters strict_label "example.com").
  { exists "example"%string, "com"%string. split; [reflexivity|]. split.
    - exists "e"%char, (chars "xample"). repeat split; simpl; lia.
    - split; [reflexivity|simpl; lia]. }
  split; [reflexivity|]. split; [exact L|].
  destruct (domain_validation server_dir parse_braces
              (request "example.com" VUndefined VUndefined) (machine python3_succeeds)
              "example.com" eq_refl) as [A _].
  exact (A L).
Defined.

Lemma result_file_names_witness :
  valid_domain "example.com" = true /\
  snd (get_results server_dir parse_braces "example.com" (VStr "csv") archive)
  = [FsRead ["srv"; "recon"; "server"; "results"; "example.com";
             "example.com_subdomains.csv"]].
Proof.
  split; [reflexivity|].
  apply (result_file_names server_dir parse_braces "example.com" (VStr "csv") archive).
  reflexivity.
Defined.

Lemma results_paths_confined_witness :
  In "/"%char (chars "../../etc/passwd") /\
  get_results server_dir parse_braces "../../etc/passwd" VUndefined archive
  = (invalid_domain, []) /\
  get_download server_dir "../../etc/passwd" VUndefined archive = (invalid_domain, []).
Proof.
  assert (H : In "/"%char (chars "../../etc/passwd")) by (simpl; tauto).
  split; [exact H|].
  destruct (results_paths_confined server_dir parse_braces "../../etc/passwd" VUndefined archive)
    as [R _].
  destruct R as (R1 & R2 & _); [right; right; left; exact H|].
  split; assumption.
Defined.

Lemma get_results_outcome_witness :
  valid_domain "example.com" = true /\
  fst (get_results server_dir parse_braces "example.com" (VStr "csv") archive)
  = {| status := 200;
       headers := [("Content-Type", "text/csv");
                   ("Content-Disposition",
                    "attachment; filename=" ++ quote ++ "example.com_subdomains.csv" ++ quote)];
       sent := Text "hostname,classification" |}.
Proof.
  split; [reflexivity|].
  exact (get_results_outcome server_dir parse_braces "example.com" (VStr "csv") archive eq_refl).
Defined.

Lemma script_arguments_witness :
  validateDomain (request "example.com" VUndefined (VNum 5)) = [] /\
  In (Spawn "python3"
        [ VStr "/srv/recon/scripts/main.py"; VStr "example.com";
          VStr "--output-dir"; VStr "/srv/recon/server/results/example.com";
          VStr "--timeout"; VNum 300; VStr "--workers"; VNum 5; VStr "--verbose" ])
     (snd (post_reconnaissance server_dir parse_braces
             (request "example.com" VUndefined (VNum 5)) (machine python3_succeeds))).
Proof.
  split; [reflexivity|].
  destruct (script_arguments server_dir parse_braces
              (request "example.com" VUndefined (VNum 5)) (machine python3_succeeds) eq_refl)
    as [(d & Hd & _ & H)|(items & Hd & _)]; [|discriminate Hd].
  injection Hd as <-. apply H. left. reflexivity.
Defined.


Lemma exit_zero_after_fallback_is_500_witness :
  validateDomain (request "example.com" VUndefined VUndefined) = [] /\
  events (machine python_only)
    = ((Primary, Error "ENOENT" "spawn python3 ENOENT")
       :: map (pair Fallback) [Data "{}"] ++ [(Fallback, Close (Some 0))])%list /\
  fst (post_reconnaissance server_dir parse_braces
         (request "example.com" VUndefined VUndefined) (machine python_only))
  = Some (internal_error "Error executing script: spawn python3 ENOENT").
Proof.
  split; [reflexivity|]. split; [reflexivity|].
  apply (exit_zero_after_fallback_is_500 server_dir parse_braces
           (request "example.com" VUndefined VUndefined) (machine python_only)
           "example.com" "spawn python3 ENOENT" [Data "{}"] []
           eq_refl eq_refl (or_introl eq_refl) eq_refl eq_refl).
Defined.

Lemma fallback_launch_witness :
  let args := script_args server_dir (machine python_only) (VStr "example.com")
                ["srv"; "recon"; "server"; "results"; "example.com"]
                VUndefined VUndefined VUndefined VUndefined VUndefined in
  executeScript server_dir (machine python_only) (VStr "example.com")
    ["srv"; "recon"; "server"; "results"; "example.com"]
    VUndefined VUndefined VUndefined VUndefined VUndefined
  = (Some (Rejected "Error executing script: spawn python3 ENOENT"),
     [Spawn "python3" args; Spawn "python" args]).
Proof.
  intros args.
  destruct (fallback_launch server_dir (machine python_only) (VStr "example.com")
              ["srv"; "recon"; "server"; "results"; "example.com"]
              VUndefined VUndefined VUndefined VUndefined VUndefined) as (_ & _ & H).
  specialize (H "spawn python3 ENOENT"%string [Data "{}"] [] eq_refl eq_refl).
  apply injective_projections; [exact H|reflexivity].
Defined.

Lemma emitted_reports_witness :
  let b := request "example.com" VUndefined VUndefined in
  let w := machine python3_succeeds in
  let report := empty_report w "example.com" "ENOENT: no such file or directory" in
  post_reconnaissance server_dir parse_braces b w
    = (Some (recon_completed w report), snd (post_reconnaissance server_dir parse_braces b w)) /\
  status (recon_completed w report) = 200%nat /\
  counts_agree report.
Proof.
  intros b w report.
  assert (P : post_reconnaissance server_dir parse_braces b w
              = (Some (recon_completed w report),
                 snd (post_reconnaissance server_dir parse_braces b w))) by reflexivity.
  split; [exact P|]. split; [reflexivity|].
  destruct (emitted_reports server_dir parse_braces b w _ _ P eq_refl)
    as (d & r & results & Hd & Hr & Hs & _ & H).
  injection Hs as <-. apply H. split.
  - intros data j Rd. discriminate Rd.
  - intros j Po. injection Hr as <-. discriminate Po.
Defined.

(** ** The further properties at work *)

(** A machine on which the run has left its JSON report. *)
Definition finished : world :=
  {| PYTHON_PATH := VUndefined;
     exists_sync := fun _ => true;
     mkdir_sync := fun _ => None;
     access := fun _ => None;
     read_file_sync := fun _ => Ok "{}";
     send_file := fun _ => None;
     start_ms := 1000;
     end_ms := 3500;
     now_iso := "2024-01-15T10:30:00.000Z";
     events := python3_succeeds |}.

(** A machine whose disk takes no new directory. *)
Definition read_only_disk : world :=
  {| PYTHON_PATH := VUndefined;
     exists_sync := fun _ => false;
     mkdir_sync := fun _ => Some "EROFS: read-only file system, mkdir";
     access := fun _ => Some "ENOENT: no such file or directory";
     read_file_sync := fun _ => Throw "ENOENT: no such file or directory";
     send_file := fun _ => Some Gone;
     start_ms := 0;
     end_ms := 0;
     now_iso := "2024-01-15T10:30:00.000Z";
     events := python3_succeeds |}.

Definition plain_request : body := request "example.com" VUndefined VUndefined.

(** python3 writes on both pipes in turn and closes with code 0. *)
Definition python3_chatty : list (proc * event) :=
  [ (Primary, Data "a"); (Primary, ErrData "x"); (Primary, Data "b");
    (Primary, Close (Some 0)) ].

Lemma python3_succeeds_exits : exits python3_succeeds [Data "[*] done"] (Some 0).
Proof. split; [reflexivity|]. exists []. reflexivity. Defined.

Lemma python3_success_results_witness :
  validateDomain plain_request = [] /\
  exits (events finished) [Data "[*] done"] (Some 0) /\
  fst (post_reconnaissance server_dir parse_braces plain_request finished)
  = Some (recon_completed finished (JObj [])).
Proof.
  split; [reflexivity|]. split; [exact python3_succeeds_exits|].
  exact (python3_success_results server_dir parse_braces plain_request finished
           "example.com" [Data "[*] done"] eq_refl eq_refl (or_introl eq_refl)
           python3_succeeds_exits).
Defined.

Lemma resolved_output_is_stdout_witness :
  exits python3_chatty [Data "a"; ErrData "x"; Data "b"] (Some 0) /\
  promise (run python3_chatty)
  = Some (Resolved {| success := true;
                      message := "Reconnaissance completed successfully";
                      output := "ab" |}).
Proof.
  assert (X : exits python3_chatty [Data "a"; ErrData "x"; Data "b"] (Some 0)).
  { split; [reflexivity|]. exists []. reflexivity. }
  split; [exact X|]. apply (resolved_output_is_stdout _ _ X).
Defined.


Lemma python_child_never_decides_witness :
  events (machine [(Primary, Error "ENOENT" "spawn python3 ENOENT")])
    = filter of_python3 (events (machine python_only)) /\
  fst (executeScript server_dir (machine python_only) (VStr "example.com")
         ["srv"; "recon"; "server"; "results"; "example.com"]
         VUndefined VUndefined VUndefined VUndefined VUndefined)
  = fst (executeScript server_dir (machine [(Primary, Error "ENOENT" "spawn python3 ENOENT")])
           (VStr "example.com") ["srv"; "recon"; "server"; "results"; "example.com"]
           VUndefined VUndefined VUndefined VUndefined VUndefined).
Proof.
  split; [reflexivity|].
  apply (python_child_never_decides server_dir (machine python_only)
           (machine [(Primary, Error "ENOENT" "spawn python3 ENOENT")])).
  reflexivity.
Defined.

Lemma directory_failure_is_500_witness :
  validateDomain plain_request = [] /\
  post_reconnaissance server_dir parse_braces plain_request read_only_disk
  = (Some (internal_error "EROFS: read-only file system, mkdir"),
     [FsExists ["srv"; "recon"; "server"; "results"; "example.com"];
      FsMkdir ["srv"; "recon"; "server"; "results"; "example.com"]]).
Proof.
  split; [reflexivity|].
  destruct (directory_failure_is_500 server_dir parse_braces plain_request read_only_disk
              "example.com" eq_refl eq_refl) as [H _].
  apply (H "EROFS: read-only file system, mkdir"%string eq_refl eq_refl).
Defined.

Lemma post_paths_confined_witness :
  In (FsAccess ["srv"; "recon"; "server"; "results"; "example.com";
                "example.com_reconnaissance_report.json"])
     (snd (post_reconnaissance server_dir parse_braces plain_request finished)) /\
  inside ["srv"; "recon"; "server"; "results"]
         ["srv"; "recon"; "server"; "results"; "example.com";
          "example.com_reconnaissance_report.json"].
Proof.
  assert (H : In (FsAccess ["srv"; "recon"; "server"; "results"; "example.com";
                            "example.com_reconnaissance_report.json"])
                 (snd (post_reconnaissance server_dir parse_braces plain_request finished))).
  { simpl. tauto. }
  split; [exact H|].
  destruct (post_paths_confined server_dir parse_braces plain_request finished _ _ H eq_refl)
    as (d & _ & _ & I).
  exact I.
Defined.

Lemma post_status_and_success_witness :
  fst (post_reconnaissance server_dir parse_braces plain_request read_only_disk)
    = Some (internal_error "EROFS: read-only file system, mkdir") /\
  get "success"
      (JObj [("success", JBool false);
             ("message", JStr "Internal server error");
             ("error", JStr "EROFS: read-only file system, mkdir");
             ("details", JStr "No additional details available")])
  = Some (JBool false).
Proof.
  split; [reflexivity|].
  destruct (post_status_and_success server_dir parse_braces plain_request read_only_disk
              (internal_error "EROFS: read-only file system, mkdir") eq_refl)
    as (_ & _ & j & Hj & Hs).
  injection Hj as <-. exact Hs.
Defined.

Lemma report_read_only_after_success_witness :
  In (FsRead ["srv"; "recon"; "server"; "results"; "example.com";
              "example.com_reconnaissance_report.json"])
     (snd (post_reconnaissance server_dir parse_braces plain_request finished)) /\
  exists r, promise (run (events finished)) = Some (Resolved r).
Proof.
  assert (H : In (FsRead ["srv"; "recon"; "server"; "results"; "example.com";
                          "example.com_reconnaissance_report.json"])
                 (snd (post_reconnaissance server_dir parse_braces plain_request finished))).
  { simpl. tauto. }
  split; [exact H|].
  destruct (report_read_only_after_success server_dir parse_braces plain_request finished
              _ _ H (or_intror eq_refl)) as (r & Hr & _).
  exists r. exact Hr.
Defined.

(** A machine whose results files are there but may not be opened. *)
Definition locked : world :=
  {| PYTHON_PATH := VUndefined;
     exists_sync := fun _ => true;
     mkdir_sync := fun _ => None;
     access := fun _ => None;
     read_file_sync := fun _ => Throw "EACCES: permission denied, open";
     send_file := fun _ => Some Unreadable;
     start_ms := 0;
     end_ms := 0;
     now_iso := "2024-01-15T10:30:00.000Z";
     events := [] |}.

Lemma get_status_and_success_witness :
  status (fst (get_results server_dir parse_braces "example.com" VUndefined archive))
  = 404%nat /\
  status (fst (get_download server_dir "example.com" VUndefined locked)) = 500%nat.
Proof.
  pose proof (get_status_and_success server_dir parse_braces "example.com" VUndefined archive)
    as [[[H|[H|H]] _] _]; [discriminate H|discriminate H|].
  split; [exact H|].
  pose proof (get_status_and_success server_dir parse_braces "example.com" VUndefined locked)
    as [_ [[K|K] _]]; [discriminate K|exact K].
Defined.

Lemma download_outcome_witness :
  valid_domain "example.com" = true /\
  get_download server_dir "example.com" (VStr "csv") archive
  = ({| status := 200;
        headers := [("Content-Type", "text/csv");
                    ("Content-Disposition",
                     "attachment; filename=" ++ quote ++ "example.com_subdomains.csv" ++ quote)];
        sent := File ["srv"; "recon"; "server"; "results"; "example.com";
                      "example.com_subdomains.csv"] "example.com_subdomains.csv" |},
     [FsAccess ["srv"; "recon"; "server"; "results"; "example.com";
                "example.com_subdomains.csv"];
      FsSend ["srv"; "recon"; "server"; "results"; "example.com";
              "example.com_subdomains.csv"]]) /\
  fst (get_download server_dir "example.com" (VStr "csv") locked)
  = {| status := 500;
       headers := [("Content-Disposition",
                    "attachment; filename=" ++ quote ++ "example.com_subdomains.csv" ++ quote)];
       sent := ErrorPage |}.
Proof.
  split; [reflexivity|]. split.
  - exact (download_outcome server_dir "example.com" (VStr "csv") archive eq_refl).
  - exact (f_equal fst (download_outcome server_dir "example.com" (VStr "csv") locked eq_refl)).
Defined.

Lemma get_handlers_only_read_witness :
  In (FsSend ["srv"; "recon"; "server"; "results"; "example.com";
              "example.com_subdomains.csv"])
     (snd (get_results server_dir parse_braces "example.com" (VStr "csv") archive) ++
      snd (get_download server_dir "example.com" (VStr "csv") archive))%list /\
  exists p, FsSend ["srv"; "recon"; "server"; "results"; "example.com";
                    "example.com_subdomains.csv"] = FsRead p \/
            FsSend ["srv"; "recon"; "server"; "results"; "example.com";
                    "example.com_subdomains.csv"] = FsAccess p \/
            FsSend ["srv"; "recon"; "server"; "results"; "example.com";
                    "example.com_subdomains.csv"] = FsSend p.
Proof.
  assert (H : In (FsSend ["srv"; "recon"; "server"; "results"; "example.com";
                          "example.com_subdomains.csv"])
                 (snd (get_results server_dir parse_braces "example.com" (VStr "csv") archive) ++
                  snd (get_download server_dir "example.com" (VStr "csv") archive))%list).
  { simpl. tauto. }
  split; [exact H|].
  exact (get_handlers_only_read server_dir parse_braces "example.com" (VStr "csv") archive _ H).
Defined.

Lemma handlers_agree_on_domains_witness :
  domain (request "www.example.com" VUndefined VUndefined) = VStr "www.example.com" /\
  (validate_domain_field (request "www.example.com" VUndefined VUndefined) = [] <->
   status (fst (get_results server_dir parse_braces "www.example.com" VUndefined archive))
   <> 400%nat).
Proof.
  split; [reflexivity|].
  apply (handlers_agree_on_domains server_dir parse_braces
           (request "www.example.com" VUndefined VUndefined) "www.example.com"
           VUndefined archive eq_refl).
Defined.

Lemma posted_report_is_served_witness :
  validateDomain plain_request = [] /\
  parse_braces "{}" = Ok (JObj []) /\
  fst (post_reconnaissance server_dir parse_braces plain_request finished)
    = Some (recon_completed finished (JObj [])) /\
  fst (get_results server_dir parse_braces "example.com" VUndefined finished)
    = {| status := 200; headers := [];
         sent := Json (JObj [("success", JBool true);
                             ("data", JObj []);
                             ("metadata", JObj [("domain", JStr "example.com");
                                                ("format", JStr "json");
                                                ("timestamp", JStr (now_iso finished))])]) |}.
Proof.
  split; [reflexivity|]. split; [reflexivity|].
  destruct (posted_report_is_served server_dir parse_braces plain_request finished
              "example.com" [Data "[*] done"] "{}" (JObj [])
              eq_refl eq_refl (or_introl eq_refl) python3_succeeds_exits
              eq_refl eq_refl eq_refl) as [P G].
  split; [exact P|]. apply G. left. reflexivity.
Defined.

Lemma result_files_do_not_collide_witness :
  let p := ["srv"; "recon"; "server"; "results"; "example.com";
            "example.com_reconnaissance_report.json"] in
  In (FsRead p) (get_effects server_dir parse_braces "example.com" VUndefined archive) /\
  In (FsAccess p) (get_effects server_dir parse_braces "example.com" (VStr "json") locked) /\
  is_json (default_format VUndefined) = is_json (default_format (VStr "json")).
Proof.
  intros p.
  assert (A : In (FsRead p)
                (get_effects server_dir parse_braces "example.com" VUndefined archive))
    by (simpl; tauto).
  assert (B : In (FsAccess p)
                (get_effects server_dir parse_braces "example.com" (VStr "json") locked))
    by (simpl; tauto).
  split; [exact A|]. split; [exact B|].
  destruct (result_files_do_not_collide server_dir parse_braces) as [G _].
  exact (proj2 (G _ _ _ _ _ _ _ _ p A B eq_refl eq_refl)).
Defined.

Lemma request_arguments_are_not_options_witness :
  String.prefix "-" (toString (VStr "--verbose")) = true /\
  (In (VStr "--verbose") option_names \/
   VStr "--verbose" = PYTHON_PATH (machine python3_succeeds)).
Proof.
  split; [reflexivity|].
  apply (request_arguments_are_not_options server_dir parse_braces
           (request "example.com" VUndefined (VNum 5)) (machine python3_succeeds)
           "python3"
           [ VStr "/srv/recon/scripts/main.py"; VStr "example.com";
             VStr "--output-dir"; VStr "/srv/recon/server/results/example.com";
             VStr "--timeout"; VNum 300; VStr "--workers"; VNum 5; VStr "--verbose" ]
           (VStr "--verbose")).
  - simpl. tauto.
  - simpl. tauto.
  - reflexivity.
Defined.

Example empty_item_is_required :
  validateDomain {| domain := VArr [AStr "example.com"; AStr ""];
                    timeout := VUndefined; workers := VUndefined;
                    verbose := VUndefined; jsonOnly := VUndefined; csvOnly := VUndefined |}
  = [required_error; format_error].
Proof. reflexivity. Qed.

Lemma domain_required_witness :
  exists errs,
    post_reconnaissance server_dir parse_braces
      (request "" (VNum 10) VUndefined) (machine python3_succeeds)
    = (Some {| status := 400; headers := [];
               sent := Json (JObj [("success", JBool false); ("errors", JArr errs)]) |},
       []) /\
    lists_error errs "domain" "Domain is required" /\
    lists_error errs "domain" "Invalid domain format".
Proof.
  destruct (domain_required server_dir parse_braces
              (request "" (VNum 10) VUndefined) (machine python3_succeeds)) as (_ & I & R).
  apply R, I. right. right. reflexivity.
Defined.

Lemma allowed_origins_split_witness :
  String.concat "," (allowed_origins (Some "http://localhost:3000,https://recon.example"))
  = "http://localhost:3000,https://recon.example"%string.
Proof.
  destruct (allowed_origins_split (Some "http://localhost:3000,https://recon.example"%string))
    as (_ & _ & H).
  destruct (H _ eq_refl) as [J _]; [discriminate|exact J].
Defined.
